(** * Hindsight: the two input-constraint engines of the game client

    The forecasting game keeps two pieces of user input consistent while the
    player drags sliders:

    - [PredictionForm.updatePrediction] (components/PredictionForm.tsx) keeps
      the four cumulative probabilities ordered,
      P(>15%) <= P(>10%) <= P(>5%) <= P(>0%);
    - [AllocationSliders.updateAllocationWithCashAdjust] and
      [AllocationSliders.updateCash] (components/AllocationSliders.tsx) keep
      the four portfolio weights inside a 100% budget, with cash as remainder;
    - [Home.handleSubmit] (app/page.tsx) checks the budget before it issues
      the game-creation request.

    Every handler of the source ends in exactly one call [onChange(x)]; the
    parent component stores [x] with its state setter.  A handler is therefore
    embedded as the pure function from the current props and the event to the
    value [x] it hands to [onChange].

    Numbers.  A TypeScript [number] is a binary64 float.  The probability
    handlers only compare numbers and select one of them ([Math.min],
    [Math.max], [>=]), which is exact on floats, so probabilities are embedded
    as rationals [Q]; the one arithmetic operation on them, [1 - x], is used in
    the theorems below only at [x = 0.5], where it is exact in binary64 as well
    (the theorems range over ordinary numbers: the sliders produce neither NaN
    nor a negative zero).  The further properties of the rows state of
    [1 - x] only on which side of 0.5, or inside which of [0, 0.5] and
    [0.5, 1], it falls; rounding to nearest keeps that, 0, 0.5 and 1 being
    binary64 numbers.
    Allocation weights come from range inputs with [step = 1] and start from
    integer literals, so they are embedded as integers [Z] (all values stay
    far inside the range where binary64 integer arithmetic is exact). *)

From Stdlib Require Import ZArith QArith Qminmax Lia Lqa Bool List String.
From Stdlib Require Import DecimalString Qabs.
Import ListNotations.

(** ** Text typed by the player

    Rationales, names and addresses are kept as the page sees them:
    sequences of UTF-16 code units, so that [length], [trim] and the
    character class of the username pattern mean what they mean in the
    source. *)

Module JsString.
Local Open Scope N_scope.

Definition t : Type := list N.

(** [s.length] *)
Definition length (s : t) : Z := Z.of_nat (List.length s).

(** [!s]: only the empty string is falsy. *)
Definition isEmpty (s : t) : bool :=
  match s with
  | [] => true
  | _ :: _ => false
  end.

(** The code units [trim] strips: the white space and line terminator
    characters of the language (tab, line feed, vertical tab, form feed,
    carriage return, space, no-break space, the space separators U+1680,
    U+2000 to U+200A, U+202F, U+205F and U+3000, the line and paragraph
    separators, and the byte order mark). *)
Definition isWhiteSpace (c : N) : bool :=
  ((9 <=? c) && (c <=? 13))
  || (c =? 32) || (c =? 160) || (c =? 5760)
  || ((8192 <=? c) && (c <=? 8202))
  || (c =? 8232) || (c =? 8233) || (c =? 8239) || (c =? 8287)
  || (c =? 12288) || (c =? 65279).

Fixpoint trimStart (s : t) : t :=
  match s with
  | [] => []
  | c :: rest => if isWhiteSpace c then trimStart rest else s
  end.

Definition trimEnd (s : t) : t := rev (trimStart (rev s)).

(** [s.trim()] *)
Definition trim (s : t) : t := trimEnd (trimStart s).

(** One code unit against the class [[a-zA-Z0-9_-]]. *)
Definition usernameChar (c : N) : bool :=
  ((97 <=? c) && (c <=? 122))
  || ((65 <=? c) && (c <=? 90))
  || ((48 <=? c) && (c <=? 57))
  || (c =? 95) || (c =? 45).

(** [/^[a-zA-Z0-9_-]+$/.test(s)]: one or more code units, all of the
    class. *)
Definition usernamePattern (s : t) : bool :=
  negb (isEmpty s) && forallb usernameChar s.

End JsString.

(** ** lib/api.ts: the shapes shared with the scoring service *)

Module Api.

Record Predictions : Type := mkPredictions {
  above_15pct : Q;
  above_10pct : Q;
  above_5pct : Q;
  above_0pct : Q
}.

Record Allocation : Type := mkAllocation {
  stocks : Z;
  bonds : Z;
  cash : Z;
  gold : Z
}.

Record GameCreateInput : Type := mkGameCreateInput {
  scenario_id : Z;
  predictions : Predictions;
  allocation : Allocation;
  rationale : JsString.t
}.

End Api.

(** ** The two [Math] functions the probability handlers use *)

Module JsMath.

(** [Math.max(a, b)] on two ordinary numbers: the larger one, and [a] itself
    when they compare equal. *)
Definition Math_max (a b : Q) : Q :=
  match a ?= b with
  | Lt => b
  | _ => a
  end.

(** [Math.min(a, b)]: the smaller one, and [a] itself when they compare
    equal. *)
Definition Math_min (a b : Q) : Q :=
  match a ?= b with
  | Gt => b
  | _ => a
  end.

End JsMath.

(** ** components/PredictionForm.tsx *)

Module PredictionForm.
Import Api JsMath.
Local Open Scope Q_scope.

(** [keyof Predictions] *)
Inductive PredictionKey : Type :=
| key_above_15pct
| key_above_10pct
| key_above_5pct
| key_above_0pct.

(** [predictions[key]] *)
Definition get (p : Predictions) (key : PredictionKey) : Q :=
  match key with
  | key_above_15pct => above_15pct p
  | key_above_10pct => above_10pct p
  | key_above_5pct => above_5pct p
  | key_above_0pct => above_0pct p
  end.

(** The four assignments [newPredictions.field = x]. *)
Definition set_above_15pct (p : Predictions) (x : Q) : Predictions :=
  mkPredictions x (above_10pct p) (above_5pct p) (above_0pct p).
Definition set_above_10pct (p : Predictions) (x : Q) : Predictions :=
  mkPredictions (above_15pct p) x (above_5pct p) (above_0pct p).
Definition set_above_5pct (p : Predictions) (x : Q) : Predictions :=
  mkPredictions (above_15pct p) (above_10pct p) x (above_0pct p).
Definition set_above_0pct (p : Predictions) (x : Q) : Predictions :=
  mkPredictions (above_15pct p) (above_10pct p) (above_5pct p) x.

(** The object spread with one computed key, [{ ...p, [key]: x }]. *)
Definition spread_with (p : Predictions) (key : PredictionKey) (x : Q)
  : Predictions :=
  match key with
  | key_above_15pct => set_above_15pct p x
  | key_above_10pct => set_above_10pct p x
  | key_above_5pct => set_above_5pct p x
  | key_above_0pct => set_above_0pct p x
  end.

(** *** PredictionRow: the Yes/No direction and confidence view of one
    probability *)

(** [const isYes = value >= 0.5] *)
Definition isYes (value : Q) : bool := Qle_bool 0.5 value.

(** [const confidence = isYes ? value : 1 - value] *)
Definition confidence (value : Q) : Q :=
  if isYes value then value else 1 - value.

(** [handleDirectionChange(newIsYes)]: the value passed to [onChange]. *)
Definition handleDirectionChange (value : Q) (newIsYes : bool) : Q :=
  let newValue := if newIsYes then confidence value
                  else 1 - confidence value in
  newValue.

(** [handleConfidenceChange(newConfidence)]: the value passed to
    [onChange]. *)
Definition handleConfidenceChange (value : Q) (newConfidence : Q) : Q :=
  let newValue := if isYes value then newConfidence
                  else 1 - newConfidence in
  newValue.

(** *** PredictionForm.updatePrediction

    The branches assign the fields of [newPredictions] one after the other;
    every later right-hand side reads the fields as the earlier assignments
    left them. *)
Definition updatePrediction (predictions : Predictions)
  (key : PredictionKey) (value : Q) : Predictions :=
  let newPredictions := spread_with predictions key value in
  match key with
  | key_above_15pct =>
      let newPredictions :=
        set_above_10pct newPredictions
          (Math_max (above_10pct newPredictions) value) in
      let newPredictions :=
        set_above_5pct newPredictions
          (Math_max (above_5pct newPredictions)
                    (above_10pct newPredictions)) in
      let newPredictions :=
        set_above_0pct newPredictions
          (Math_max (above_0pct newPredictions)
                    (above_5pct newPredictions)) in
      newPredictions
  | key_above_10pct =>
      let newPredictions :=
        set_above_15pct newPredictions
          (Math_min (above_15pct newPredictions) value) in
      let newPredictions :=
        set_above_5pct newPredictions
          (Math_max (above_5pct newPredictions) value) in
      let newPredictions :=
        set_above_0pct newPredictions
          (Math_max (above_0pct newPredictions)
                    (above_5pct newPredictions)) in
      newPredictions
  | key_above_5pct =>
      let newPredictions :=
        set_above_15pct newPredictions
          (Math_min (above_15pct newPredictions) value) in
      let newPredictions :=
        set_above_10pct newPredictions
          (Math_min (Math_max (above_10pct newPredictions)
                              (above_15pct newPredictions))
                    value) in
      let newPredictions :=
        set_above_0pct newPredictions
          (Math_max (above_0pct newPredictions) value) in
      newPredictions
  | key_above_0pct =>
      let newPredictions :=
        set_above_15pct newPredictions
          (Math_min (above_15pct newPredictions) value) in
      let newPredictions :=
        set_above_10pct newPredictions
          (Math_min (above_10pct newPredictions) value) in
      let newPredictions :=
        set_above_5pct newPredictions
          (Math_min (above_5pct newPredictions) value) in
      newPredictions
  end.

(** The row of the form that belongs to [key] shows [predictions[key]] and
    reports its edits through [updatePrediction(key, v)]; these are the two
    interactions of a row, composed with the form. *)
Definition directionClick (predictions : Predictions)
  (key : PredictionKey) (newIsYes : bool) : Predictions :=
  updatePrediction predictions key
    (handleDirectionChange (get predictions key) newIsYes).

Definition confidenceSlide (predictions : Predictions)
  (key : PredictionKey) (newConfidence : Q) : Predictions :=
  updatePrediction predictions key
    (handleConfidenceChange (get predictions key) newConfidence).

End PredictionForm.


(** ** components/AllocationSliders.tsx (the slider version) *)

Module AllocationSliders.
Import Api.
Local Open Scope Z_scope.

(** The key type of [updateAllocationWithCashAdjust]:
    ['stocks' | 'bonds' | 'gold']. *)
Inductive AssetKey : Type :=
| key_stocks
| key_bonds
| key_gold.

(** [allocation[key]] *)
Definition get (a : Allocation) (key : AssetKey) : Z :=
  match key with
  | key_stocks => stocks a
  | key_bonds => bonds a
  | key_gold => gold a
  end.

(** [const total = allocation.stocks + allocation.bonds + allocation.cash
    + allocation.gold] *)
Definition total (allocation : Allocation) : Z :=
  stocks allocation + bonds allocation + cash allocation + gold allocation.

(** [const isValid = total === 100] *)
Definition isValid (allocation : Allocation) : bool :=
  total allocation =? 100.

(** The figure the total indicator prints next to an invalid total,
    [total - 100]. *)
Definition delta (allocation : Allocation) : Z :=
  total allocation - 100.

(** [const otherAssets = key === 'stocks' ? ... : key === 'bonds' ? ... : ...] *)
Definition otherAssets (allocation : Allocation) (key : AssetKey) : Z :=
  match key with
  | key_stocks => bonds allocation + gold allocation
  | key_bonds => stocks allocation + gold allocation
  | key_gold => stocks allocation + bonds allocation
  end.

(** [{ ...allocation, [key]: x, cash: c }] *)
Definition spread_with (allocation : Allocation) (key : AssetKey)
  (x c : Z) : Allocation :=
  match key with
  | key_stocks => mkAllocation x (bonds allocation) c (gold allocation)
  | key_bonds => mkAllocation (stocks allocation) x c (gold allocation)
  | key_gold => mkAllocation (stocks allocation) (bonds allocation) c x
  end.

(** When stocks, bonds, or gold change, adjust cash to maintain 100%. *)
Definition updateAllocationWithCashAdjust (allocation : Allocation)
  (key : AssetKey) (value : Z) : Allocation :=
  let otherAssets := otherAssets allocation key in
  (* Cap the value so total doesn't exceed 100 *)
  let maxValue := 100 - otherAssets in
  let cappedValue := Z.min value maxValue in
  (* Calculate remaining for cash *)
  let newCash := 100 - cappedValue - otherAssets in
  spread_with allocation key cappedValue (Z.max 0 newCash).

(** Cash slider adjusts directly (user can override auto-calculation). *)
Definition updateCash (allocation : Allocation) (value : Z) : Allocation :=
  let otherAssets :=
    stocks allocation + bonds allocation + gold allocation in
  let maxCash := 100 - otherAssets in
  mkAllocation (stocks allocation) (bonds allocation)
    (Z.min value maxCash) (gold allocation).

(** Quick presets: [applyPreset(preset) { onChange(preset) }].  The current
    allocation is a prop of the component and plays no part. *)
Definition applyPreset (allocation preset : Allocation) : Allocation :=
  preset.

(** [const cashIsRemainder = allocation.cash === (100 - stocks - bonds - gold)] *)
Definition cashIsRemainder (allocation : Allocation) : bool :=
  cash allocation
  =? 100 - stocks allocation - bonds allocation - gold allocation.

(** The four slider rows and the handler each one is wired to. *)
Inductive Slider : Type :=
| Stocks
| Bonds
| Gold
| Cash.

Definition sliderChange (allocation : Allocation) (row : Slider) (v : Z)
  : Allocation :=
  match row with
  | Stocks => updateAllocationWithCashAdjust allocation key_stocks v
  | Bonds => updateAllocationWithCashAdjust allocation key_bonds v
  | Gold => updateAllocationWithCashAdjust allocation key_gold v
  | Cash => updateCash allocation v
  end.

(** The non-cash weights a slider edit leaves alone: the [otherAssets] of
    the handler behind the row. *)
Definition sliderOthers (allocation : Allocation) (row : Slider) : Z :=
  match row with
  | Stocks => otherAssets allocation key_stocks
  | Bonds => otherAssets allocation key_bonds
  | Gold => otherAssets allocation key_gold
  | Cash => stocks allocation + bonds allocation + gold allocation
  end.

(** The five quick-preset buttons under the sliders. *)
Definition presetButtons : list Allocation :=
  [ mkAllocation 60 40 0 0;
    mkAllocation 100 0 0 0;
    mkAllocation 0 100 0 0;
    mkAllocation 0 0 100 0;
    mkAllocation 25 25 25 25 ].

End AllocationSliders.

(** ** components/AllocationSliders.tsx (the preset-only version) *)

Module AllocationPresets.
Import Api.
Local Open Scope Z_scope.

Record Preset : Type := mkPreset {
  name : string;
  allocation : Allocation;
  color : string
}.

Definition ALLOCATION_PRESETS : list Preset :=
  [ mkPreset "60/40 Stocks/Bonds" (mkAllocation 60 40 0 0) "stocks";
    mkPreset "All Stocks" (mkAllocation 100 0 0 0) "stocks";
    mkPreset "All Bonds" (mkAllocation 0 100 0 0) "bonds";
    mkPreset "All Gold" (mkAllocation 0 0 0 100) "gold";
    mkPreset "Equal Split" (mkAllocation 25 25 25 25) "terminal-text" ].

Definition allocationEquals (a b : Allocation) : bool :=
  (stocks a =? stocks b) && (bonds a =? bonds b)
  && (cash a =? cash b) && (gold a =? gold b).

(** [onClick={() => onChange(preset.allocation)}] *)
Definition presetClick (current : Allocation) (preset : Preset)
  : Allocation :=
  allocation preset.

(** [ALLOCATION_PRESETS.find(p => allocationEquals(p.allocation, allocation))] *)
Definition selectedPreset (current : Allocation) : option Preset :=
  find (fun p => allocationEquals (allocation p) current) ALLOCATION_PRESETS.

End AllocationPresets.

(** ** app/page.tsx: the game page that owns both vectors *)

Module Home.
Import Api.
Local Open Scope Z_scope.
Local Open Scope string_scope.

(** [type GameState = 'loading' | 'playing' | 'submitting' | 'reveal'] *)
Inductive GameState : Type :=
| loading
| playing
| submitting
| reveal.

(** The [useState] cells of the page.  Of the loaded scenario only its
    [scenario_id] is read by the code embedded here. *)
Record State : Type := mkState {
  gameState : GameState;
  scenario : option Z;
  error : option string;
  predictions : Predictions;
  allocation : Allocation;
  rationale : JsString.t
}.

(** The initial values of the two vectors. *)
Definition initialPredictions : Predictions :=
  mkPredictions 0.3 0.4 0.6 0.75.

Definition initialAllocation : Allocation :=
  {| stocks := 60; bonds := 30; cash := 5; gold := 5 |}.

Definition initialState : State :=
  mkState loading None None initialPredictions initialAllocation [].

Definition setGameState (st : State) (g : GameState) : State :=
  mkState g (scenario st) (error st) (predictions st) (allocation st)
    (rationale st).

Definition setError (st : State) (e : option string) : State :=
  mkState (gameState st) (scenario st) e (predictions st) (allocation st)
    (rationale st).

Definition setPredictions (st : State) (p : Predictions) : State :=
  mkState (gameState st) (scenario st) (error st) p (allocation st)
    (rationale st).

Definition setAllocation (st : State) (a : Allocation) : State :=
  mkState (gameState st) (scenario st) (error st) (predictions st) a
    (rationale st).

(** A number inside a template literal. *)
Definition showNumber (n : Z) : string :=
  NilZero.string_of_int (Z.to_int n).

(** [handleSubmit], up to its first [await]: the state the setters leave and
    the [api.createGame] request, if one is issued.  What follows the [await]
    (the redirect, or the [catch] that reports a failed request) runs only
    after a request has been issued.  [rationale.length] counts UTF-16 code
    units. *)
Definition handleSubmit (st : State) : State * option GameCreateInput :=
  match scenario st with
  | None => (st, None)
  | Some scenario_id =>
      (* Validate rationale (optional, but max 500 chars) *)
      if (500 <? JsString.length (rationale st))%Z then
        (setError st (Some "Rationale must be 500 characters or less."), None)
      else
        (* Validate allocation sums to 100 *)
        let total :=
          stocks (allocation st) + bonds (allocation st)
          + cash (allocation st) + gold (allocation st) in
        if negb (total =? 100)%Z then
          (setError st
             (Some ("Allocations must sum to 100%. Currently: "
                    ++ showNumber total ++ "%")),
           None)
        else
          let st := setGameState st submitting in
          let st := setError st None in
          let input :=
            mkGameCreateInput scenario_id (predictions st) (allocation st)
              (rationale st) in
          (st, Some input)
  end.

(** The page passes [onChange={setPredictions}] and
    [onChange={setAllocation}] to the two forms. *)
Definition predictionEdit (st : State) (key : PredictionForm.PredictionKey)
  (value : Q) : State :=
  setPredictions st
    (PredictionForm.updatePrediction (predictions st) key value).

Definition allocationEdit (st : State) (row : AllocationSliders.Slider)
  (value : Z) : State :=
  setAllocation st (AllocationSliders.sliderChange (allocation st) row value).

Definition presetEdit (st : State) (preset : Allocation) : State :=
  setAllocation st (AllocationSliders.applyPreset (allocation st) preset).

(** The allocations the page can hold: the initial one, and what a slider
    event (a range input reports a whole number between its [min = 0] and
    [max = 100]) or a preset button makes of one it can hold. *)
Inductive reachable : Allocation -> Prop :=
| reach_initial : reachable initialAllocation
| reach_slider (a : Allocation) (row : AllocationSliders.Slider) (v : Z) :
    reachable a -> 0 <= v <= 100 ->
    reachable (AllocationSliders.sliderChange a row v)
| reach_preset (a preset : Allocation) :
    reachable a -> In preset AllocationSliders.presetButtons ->
    reachable (AllocationSliders.applyPreset a preset).

End Home.

(** ** The engine interface, in the names of the specification

    [applyProbabilityEdit] is [updatePrediction]; [applyAllocationEdit] is
    the dispatch of the four slider rows; [applyAllocationPreset] is
    [applyPreset]; [validateAllocation] is the pair the slider component
    computes for its total indicator, whose first half is also the test of
    [handleSubmit]. *)

Module Engine.
Import Api.
Local Open Scope Z_scope.

Definition applyProbabilityEdit := PredictionForm.updatePrediction.

Definition applyAllocationEdit := AllocationSliders.sliderChange.

Definition applyAllocationPreset := AllocationSliders.applyPreset.

Record Validation : Type := mkValidation {
  valid : bool;
  delta : Z
}.

Definition validateAllocation (a : Allocation) : Validation :=
  mkValidation (AllocationSliders.isValid a) (AllocationSliders.delta a).

(** The ordering the probability form maintains. *)
Definition monotonic (p : Predictions) : Prop :=
  (above_15pct p <= above_10pct p)%Q
  /\ (above_10pct p <= above_5pct p)%Q
  /\ (above_5pct p <= above_0pct p)%Q.

(** A probability. *)
Definition unit_interval (x : Q) : Prop := (0 <= x)%Q /\ (x <= 1)%Q.

Definition probabilities (p : Predictions) : Prop :=
  unit_interval (above_15pct p) /\ unit_interval (above_10pct p)
  /\ unit_interval (above_5pct p) /\ unit_interval (above_0pct p).

(** The thresholds from the tightest to the loosest. *)
Definition rank (key : PredictionForm.PredictionKey) : nat :=
  match key with
  | PredictionForm.key_above_15pct => 0
  | PredictionForm.key_above_10pct => 1
  | PredictionForm.key_above_5pct => 2
  | PredictionForm.key_above_0pct => 3
  end.

(** [consistent edited v other x]: the value [x] of the field [other] respects
    the ordering against the value [v] of the field [edited]: a tighter
    threshold is at most [v], a looser one at least [v]. *)
Definition consistent (edited : PredictionForm.PredictionKey) (v : Q)
  (other : PredictionForm.PredictionKey) (x : Q) : Prop :=
  if (rank other <? rank edited)%nat then (x <= v)%Q else (v <= x)%Q.

(** A percentage. *)
Definition percentage (x : Z) : Prop := 0 <= x <= 100.

Definition percentages (a : Allocation) : Prop :=
  percentage (stocks a) /\ percentage (bonds a)
  /\ percentage (gold a) /\ percentage (cash a).

End Engine.

(** ** The prediction vectors a game can hold

    The page starts from [Home.initialPredictions]; each row of the form
    changes it through one of its two controls.  The confidence slider is a
    range input with [min = 50] and [max = 100] whose value is divided by
    100. *)

Module Session.
Import Api.
Local Open Scope Q_scope.

Inductive reachablePredictions : Predictions -> Prop :=
| reach_default : reachablePredictions Home.initialPredictions
| reach_direction (p : Predictions) (key : PredictionForm.PredictionKey)
    (newIsYes : bool) :
    reachablePredictions p ->
    reachablePredictions (PredictionForm.directionClick p key newIsYes)
| reach_confidence (p : Predictions) (key : PredictionForm.PredictionKey)
    (newConfidence : Q) :
    reachablePredictions p ->
    0.5 <= newConfidence -> newConfidence <= 1 ->
    reachablePredictions (PredictionForm.confidenceSlide p key newConfidence).

End Session.

(** ** components/RationaleInput.tsx *)

Module RationaleInput.
Local Open Scope Z_scope.
Local Open Scope string_scope.

(** The default of the [maxLength] prop; the page passes none. *)
Definition defaultMaxLength : Z := 500.

(** [const length = value.length] *)
Definition length (value : JsString.t) : Z := JsString.length value.

(** [const isTooLong = length > maxLength] *)
Definition isTooLong (value : JsString.t) (maxLength : Z) : bool :=
  (maxLength <? length value)%Z.

(** The [maxLength] attribute of the textarea: some overflow is allowed for
    editing. *)
Definition textareaMaxLength (maxLength : Z) : Z := maxLength + 50.

(** The three conditional texts of the status line, in the order of the
    source; a condition that is false renders nothing. *)
Definition statusTexts (value : JsString.t) (maxLength : Z)
  : list string :=
  (if isTooLong value maxLength
   then [Home.showNumber (length value - maxLength)
         ++ " characters over limit"]
   else [])
  ++ (if negb (isTooLong value maxLength) && (0 <? length value)%Z
      then ["✓ Rationale added"] else [])
  ++ (if (length value =? 0)%Z then ["Optional"] else []).

(** The colour class of the status line. *)
Definition statusClass (value : JsString.t) (maxLength : Z) : string :=
  if isTooLong value maxLength then "text-loss"
  else if (0 <? length value)%Z then "text-gain"
  else "text-terminal-muted".

(** The counter at the right, [{length}/{maxLength}]. *)
Definition counter (value : JsString.t) (maxLength : Z) : string :=
  Home.showNumber (length value) ++ "/" ++ Home.showNumber maxLength.

End RationaleInput.

(** ** components/AssetChart.tsx and components/MacroIndicators.tsx

    Both files define the same [getMonthLabel]; the indicator chart then
    selects, labels and optionally indexes the rows it is given.  Month
    indices are integers; indicator values are embedded as rationals, and
    the theorems about them use only comparisons, selections and quotients
    that are exact in binary64 too. *)

Module Charts.
Local Open Scope Z_scope.
Local Open Scope string_scope.

(** The optional [startDateStr] argument as [getMonthLabel] reads it: absent
    (undefined or the empty string, for which [!startDateStr] holds), or a
    date string [YYYY-MM-DD] whose first two pieces, split at the hyphens,
    convert to the integers [year] and [month]. *)
Inductive StartDate : Type :=
| NoStartDate
| YearMonth (year month : Z).

Definition monthNames : list string :=
  ["Jan"; "Feb"; "Mar"; "Apr"; "May"; "Jun";
   "Jul"; "Aug"; "Sep"; "Oct"; "Nov"; "Dec"].

(** [monthNames[i]] inside a template literal: an index outside the array
    reads [undefined]. *)
Definition monthName (i : Z) : string :=
  if (i <? 0)%Z then "undefined"
  else match nth_error monthNames (Z.to_nat i) with
       | Some name => name
       | None => "undefined"
       end.

(** [const totalMonths = (year * 12 + (month - 1)) + (monthIndex - 24)] *)
Definition totalMonths (monthIndex year month : Z) : Z :=
  (year * 12 + (month - 1)) + (monthIndex - 24).

(** [Math.floor(totalMonths / 12)] rounds down; [totalMonths % 12] takes the
    sign of [totalMonths]. *)
Definition resultYear (monthIndex year month : Z) : Z :=
  (totalMonths monthIndex year month) / 12.

Definition resultMonth (monthIndex year month : Z) : Z :=
  Z.rem (totalMonths monthIndex year month) 12.

(** Helper to format month index to actual date label. *)
Definition getMonthLabel (monthIndex : Z) (startDate : StartDate) : string :=
  match startDate with
  | NoStartDate => "Month " ++ Home.showNumber monthIndex
  | YearMonth year month =>
      monthName (resultMonth monthIndex year month) ++ " "
      ++ Home.showNumber (resultYear monthIndex year month)
  end.

(** [keyof MonthlyData], for the five indicator columns. *)
Inductive DataKey : Type :=
| gdp_growth_yoy_key
| unemployment_rate_key
| inflation_rate_yoy_key
| fed_funds_rate_key
| industrial_prod_yoy_key.

(** [MonthlyData] of lib/api.ts; [None] is [null]. *)
Record MonthlyData : Type := mkMonthlyData {
  month_index : Z;
  is_forward : bool;
  idx_stocks : Q;
  idx_bonds : Q;
  idx_cash : Q;
  idx_gold : Q;
  gdp_growth_yoy : option Q;
  unemployment_rate : option Q;
  inflation_rate_yoy : option Q;
  fed_funds_rate : option Q;
  industrial_prod_yoy : option Q
}.

(** [d[activeIndicator.dataKey]] *)
Definition column (d : MonthlyData) (dataKey : DataKey) : option Q :=
  match dataKey with
  | gdp_growth_yoy_key => gdp_growth_yoy d
  | unemployment_rate_key => unemployment_rate d
  | inflation_rate_yoy_key => inflation_rate_yoy d
  | fed_funds_rate_key => fed_funds_rate d
  | industrial_prod_yoy_key => industrial_prod_yoy d
  end.

(** One point of the indicator chart. *)
Record Point : Type := mkPoint {
  month : string;
  monthIndex : Z;
  value : option Q
}.

(** Filter to historical data unless showForward is true. *)
Definition chartData (data : list MonthlyData) (showForward : bool)
  : list MonthlyData :=
  if showForward then data
  else filter (fun d => negb (is_forward d)) data.

Definition hasValue (d : Point) : bool :=
  match value d with
  | Some _ => true
  | None => false
  end.

(** Prepare chart data for active indicator. *)
Definition rawData (data : list MonthlyData) (showForward : bool)
  (startDate : StartDate) (dataKey : DataKey) : list Point :=
  filter hasValue
    (map (fun d =>
            mkPoint (getMonthLabel (month_index d) startDate)
              (month_index d) (column d dataKey))
       (chartData data showForward)).

(** [rawData.find(d => d.monthIndex === n)?.month] *)
Definition monthLabelOf (n : Z) (raw : list Point) : option string :=
  option_map month (find (fun d => (monthIndex d =? n)%Z) raw).

(** [rawData.length > 0 && rawData[0].value !== null ? rawData[0].value : 1] *)
Definition baseValue (raw : list Point) : Q :=
  match raw with
  | d :: _ =>
      match value d with
      | Some v => v
      | None => 1
      end
  | [] => 1
  end.

(** [baseValue || 1]: zero is falsy. *)
Definition orOne (x : Q) : Q := if Qeq_bool x 0 then 1 else x.

(** In hard mode, index values to 100 based on first value. *)
Definition formattedData (hardMode : bool) (raw : list Point) : list Point :=
  if hardMode then
    map (fun d =>
           mkPoint (month d) (monthIndex d)
             match value d with
             | Some v => Some ((v / Qabs (orOne (baseValue raw))) * 100)%Q
             | None => None
             end)
      raw
  else raw.

End Charts.

(** ** components/MacroIndicators.tsx: the statistics under the tabs and
    the range of the value axis *)

Module IndicatorStats.
Import Charts JsMath.
Local Open Scope Q_scope.

(** [formattedData.map(d => d.value).filter(v => v !== null)] *)
Fixpoint values (formatted : list Point) : list Q :=
  match formatted with
  | [] => []
  | d :: rest =>
      match value d with
      | Some v => v :: values rest
      | None => values rest
      end
  end.

(** [values.length > 0 ? Math.min(...values) : 0] *)
Definition minValue (vs : list Q) : Q :=
  match vs with
  | [] => 0
  | v :: rest => fold_left Math_min rest v
  end.

(** [values.length > 0 ? Math.max(...values) : 0] *)
Definition maxValue (vs : list Q) : Q :=
  match vs with
  | [] => 0
  | v :: rest => fold_left Math_max rest v
  end.

(** [values.length > 0 ? values[values.length - 1] : null] *)
Definition currentValue (vs : list Q) : option Q :=
  match vs with
  | [] => None
  | v :: rest => Some (last rest v)
  end.

(** [values.length > 0 ? values[0] : null] *)
Definition startValue (vs : list Q) : option Q := hd_error vs.

(** [activeIndicator.referenceValue ?? fallback] *)
Definition orElse (referenceValue : option Q) (fallback : Q) : Q :=
  match referenceValue with
  | Some r => r
  | None => fallback
  end.

(** The [domain] of the value axis outside hard mode:
    [[Math.min(minValue, ref ?? minValue) - 1,
      Math.max(maxValue, ref ?? maxValue) + 1]]. *)
Definition yDomain (vs : list Q) (referenceValue : option Q) : Q * Q :=
  (Math_min (minValue vs) (orElse referenceValue (minValue vs)) - 1,
   Math_max (maxValue vs) (orElse referenceValue (maxValue vs)) + 1).

End IndicatorStats.

(** ** lib/api.ts: which backend the client talks to *)

Module ApiClient.
Local Open Scope string_scope.

Definition PROD_API : string :=
  "https://hindsight-production-38c1.up.railway.app/api".

Definition DEV_API : string := "http://localhost:8000/api".

(** [getApiUrl]: [window] is [None] during server-side rendering and
    otherwise carries [window.location.hostname]. *)
Definition getApiUrl (window : option string) : string :=
  match window with
  | None => PROD_API
  | Some hostname =>
      if String.eqb hostname "localhost" || String.eqb hostname "127.0.0.1"
      then DEV_API
      else PROD_API
  end.

(** Getter that returns fresh URL each time. *)
Definition getAPI (window : option string) : string := getApiUrl window.

End ApiClient.

(** ** app/welcome/page.tsx: choosing a username *)

Module WelcomePage.
Local Open Scope Z_scope.
Local Open Scope string_scope.

Record State : Type := mkState {
  username : JsString.t;
  error : option string;
  submitting : bool
}.

Definition setError (st : State) (e : option string) : State :=
  mkState (username st) e (submitting st).

Definition setSubmitting (st : State) (b : bool) : State :=
  mkState (username st) (error st) b.

(** [handleSetUsername], up to its first [await]: the state the setters
    leave and the name passed to [api.setUsername], if the call is made. *)
Definition handleSetUsername (st : State) : State * option JsString.t :=
  let trimmed := JsString.trim (username st) in
  if (JsString.length trimmed <? 3)%Z then
    (setError st (Some "Username must be at least 3 characters"), None)
  else if (20 <? JsString.length trimmed)%Z then
    (setError st (Some "Username must be 20 characters or less"), None)
  else if negb (JsString.usernamePattern trimmed) then
    (setError st
       (Some "Username can only contain letters, numbers, underscores, and hyphens"),
     None)
  else
    let st := setSubmitting st true in
    let st := setError st None in
    (st, Some trimmed).

(** [disabled={submitting || username.trim().length < 3}] *)
Definition submitDisabled (st : State) : bool :=
  submitting st || (JsString.length (JsString.trim (username st)) <? 3)%Z.

End WelcomePage.

(** ** app/login/page.tsx: asking for a login link *)

Module LoginPage.
Local Open Scope string_scope.

Inductive Status : Type :=
| idle
| sending
| sent
| failed.

Record State : Type := mkState {
  email : JsString.t;
  status : Status;
  error : option string
}.

(** [handleSubmit], up to its first [await]: the state the setters leave
    and the address passed to [api.requestMagicLink], if the call is
    made. *)
Definition handleSubmit (st : State) : State * option JsString.t :=
  if JsString.isEmpty (JsString.trim (email st)) then
    (mkState (email st) (status st) (Some "Please enter your email"), None)
  else
    (mkState (email st) sending None, Some (JsString.trim (email st))).

End LoginPage.

(** ** app/reveal/[token]/page.tsx: joining the leaderboard *)

Module RevealPage.
Local Open Scope Z_scope.
Local Open Scope string_scope.

(** Of the logged-in [User] the handler reads [username] alone; [None] is
    [null]. *)
Record User : Type := mkUser {
  account_username : option JsString.t
}.

Record State : Type := mkState {
  username : JsString.t;
  error : option string;
  joinedLeaderboard : bool
}.

(** The three backend calls of the handler. *)
Inductive Request : Type :=
| SetUsername (name : JsString.t)
| LinkGameToUser (token : string)
| JoinLeaderboard (token : string) (name : JsString.t).

(** How an awaited call ends: it resolves, or it rejects with an error
    whose [message] is given. *)
Inductive Outcome : Type :=
| Resolved
| Rejected (message : string).

(** The answers of the backend to the calls the handler may make. *)
Record Backend : Type := mkBackend {
  setUsernameOutcome : Outcome;
  linkGameOutcome : Outcome;
  joinOutcome : Outcome
}.

(** [err.message || fallback] *)
Definition messageOr (message fallback : string) : string :=
  if String.eqb message "" then fallback else message.

(** [user?.username || username] *)
Definition usernameToUse (user : option User) (st : State) : JsString.t :=
  match user with
  | Some u =>
      match account_username u with
      | Some name => if JsString.isEmpty name then username st else name
      | None => username st
      end
  | None => username st
  end.

(** [!user.username] *)
Definition lacksUsername (u : User) : bool :=
  match account_username u with
  | Some name => JsString.isEmpty name
  | None => true
  end.

(** [handleJoinLeaderboard]: the final state and the requests sent, in
    order, given the answers of the backend. *)
Definition handleJoinLeaderboard (user : option User) (token : string)
  (backend : Backend) (st : State) : State * list Request :=
  (* Use existing username from user account or the input field *)
  let name := usernameToUse user st in
  if JsString.isEmpty name || (JsString.length name <? 3)%Z then
    (mkState (username st) (Some "Username must be at least 3 characters")
       (joinedLeaderboard st),
     [])
  else
    let failWith (message : string) (sent : list Request) :=
      (mkState (username st)
         (Some (messageOr message "Failed to join leaderboard"))
         (joinedLeaderboard st),
       sent) in
    (* If user is logged in but doesn't have a username, set it first *)
    let setsUsername :=
      match user with
      | Some u => lacksUsername u && negb (JsString.isEmpty (username st))
      | None => false
      end in
    let sent1 := if setsUsername then [SetUsername (username st)] else [] in
    match (if setsUsername then setUsernameOutcome backend else Resolved) with
    | Rejected message => failWith message sent1
    | Resolved =>
        (* Link game to user if logged in; a failure is swallowed *)
        let sent2 :=
          match user with
          | Some _ => (sent1 ++ [LinkGameToUser token])%list
          | None => sent1
          end in
        let sent3 := (sent2 ++ [JoinLeaderboard token name])%list in
        match joinOutcome backend with
        | Rejected message => failWith message sent3
        | Resolved => (mkState (username st) None true, sent3)
        end
    end.

End RevealPage.

(** ** Integers the handlers compute exactly

    A binary64 number holds every integer of magnitude up to 2^53.  On
    weights and requested values of magnitude up to 2^50 every sum and
    difference the allocation handlers form stays below that, so their
    arithmetic is that of the integers. *)

Module Binary64.
Import Api.
Local Open Scope Z_scope.

Definition exactInteger (x : Z) : Prop := - 2 ^ 50 <= x <= 2 ^ 50.

Definition exactAllocation (a : Allocation) : Prop :=
  exactInteger (stocks a) /\ exactInteger (bonds a)
  /\ exactInteger (cash a) /\ exactInteger (gold a).

(** What binary64 represents without rounding. *)
Definition representable (x : Z) : Prop := - 2 ^ 53 <= x <= 2 ^ 53.

End Binary64.

(** * Properties *)

(** ** [Math.max] and [Math.min] select one of their arguments *)

Section MathFacts.
Import JsMath.
Local Open Scope Q_scope.

Lemma Math_max_cases (a b : Q) :
  (b <= a /\ Math_max a b = a) \/ (a < b /\ Math_max a b = b).
Proof.
  unfold Math_max.
  destruct (Qcompare_spec a b) as [E | L | G].
  - left. split; [rewrite E; apply Qle_refl | reflexivity].
  - right. split; [exact L | reflexivity].
  - left. split; [apply Qlt_le_weak; exact G | reflexivity].
Qed.

Lemma Math_min_cases (a b : Q) :
  (a <= b /\ Math_min a b = a) \/ (b < a /\ Math_min a b = b).
Proof.
  unfold Math_min.
  destruct (Qcompare_spec a b) as [E | L | G].
  - left. split; [rewrite E; apply Qle_refl | reflexivity].
  - left. split; [apply Qlt_le_weak; exact L | reflexivity].
  - right. split; [exact G | reflexivity].
Qed.

(** They are the maximum and minimum of the rationals' order. *)
Lemma Math_max_is_Qmax (a b : Q) : Math_max a b = Qmax a b.
Proof. reflexivity. Qed.

Lemma Math_min_is_Qmin (a b : Q) : Math_min a b = Qmin a b.
Proof. reflexivity. Qed.

End MathFacts.

(** Splits the goal on which argument each [Math_max] and [Math_min] returns,
    innermost calls first, and keeps the order fact of every case. *)
Ltac split_minmax :=
  repeat match goal with
  | |- context [JsMath.Math_max ?a ?b] =>
      lazymatch a with context [JsMath.Math_max _ _] => fail
                     | context [JsMath.Math_min _ _] => fail | _ => idtac end;
      lazymatch b with context [JsMath.Math_max _ _] => fail
                     | context [JsMath.Math_min _ _] => fail | _ => idtac end;
      let H := fresh "Hord" in let E := fresh "Esel" in
      destruct (Math_max_cases a b) as [[H E] | [H E]]; rewrite !E in *; clear E
  | |- context [JsMath.Math_min ?a ?b] =>
      lazymatch a with context [JsMath.Math_max _ _] => fail
                     | context [JsMath.Math_min _ _] => fail | _ => idtac end;
      lazymatch b with context [JsMath.Math_max _ _] => fail
                     | context [JsMath.Math_min _ _] => fail | _ => idtac end;
      let H := fresh "Hord" in let E := fresh "Esel" in
      destruct (Math_min_cases a b) as [[H E] | [H E]]; rewrite !E in *; clear E
  end.

(** Closes an order fact, or an equation between two selected values, once
    every selection has been split. *)
Ltac order_or_same := first [ reflexivity | lra | exfalso; lra ].

(** ** The probability form *)

Section ProbabilityEngine.
Import Api JsMath PredictionForm Engine.
Local Open Scope Q_scope.

(** The edited field holds the new value, whatever the old vector was. *)
Lemma updatePrediction_sets_key (p : Predictions) (key : PredictionKey)
  (v : Q) :
  get (updatePrediction p key v) key = v.
Proof. destruct key; reflexivity. Qed.

(** An edit of one of the three tighter thresholds orders the result even
    when the old vector was not ordered. *)
Lemma updatePrediction_monotonic_tight (p : Predictions)
  (key : PredictionKey) (v : Q) :
  key <> key_above_0pct -> monotonic (updatePrediction p key v).
Proof.
  intros Hk. destruct p as [a15 a10 a5 a0].
  destruct key; try congruence;
    unfold monotonic, updatePrediction; cbn;
    split_minmax; repeat split; order_or_same.
Qed.

(** An edit of the loosest threshold lowers the other three independently, so
    it keeps an ordered vector ordered. *)
Lemma updatePrediction_monotonic_loose (p : Predictions) (v : Q) :
  monotonic p -> monotonic (updatePrediction p key_above_0pct v).
Proof.
  destruct p as [a15 a10 a5 a0]. unfold monotonic, updatePrediction; cbn.
  intros (H1 & H2 & H3).
  split_minmax; repeat split; order_or_same.
Qed.

(** An edit with a probability keeps four probabilities four
    probabilities: every field of the result is an old field or [v]. *)
Lemma updatePrediction_probabilities (p : Predictions) (key : PredictionKey)
  (v : Q) :
  probabilities p -> unit_interval v ->
  probabilities (updatePrediction p key v).
Proof.
  destruct p as [a15 a10 a5 a0]. unfold probabilities, unit_interval; cbn.
  intros ((? & ?) & (? & ?) & (? & ?) & (? & ?)) (? & ?).
  destruct key; unfold updatePrediction; cbn;
    split_minmax; repeat split; assumption.
Qed.

(** C1.  Monotonicity invariant: from a vector of four probabilities ordered
    [above15 <= above10 <= above5 <= above0], an edit of any field to any
    [v] in [0,1] (0 and 1 included) returns a vector that is ordered again
    and whose edited field is exactly [v]. *)
Theorem applyProbabilityEdit_monotonic (p : Predictions)
  (key : PredictionKey) (v : Q) :
  probabilities p -> monotonic p -> unit_interval v ->
  monotonic (applyProbabilityEdit p key v)
  /\ get (applyProbabilityEdit p key v) key = v.
Proof.
  intros _ Hp _. unfold applyProbabilityEdit. split.
  - destruct key;
      try (apply updatePrediction_monotonic_tight; discriminate).
    apply updatePrediction_monotonic_loose; exact Hp.
  - apply updatePrediction_sets_key.
Qed.

(** On an ordered vector every branch of [updatePrediction] compares each
    other field with the edited value alone: a field that respects the
    ordering against [v] is returned as it was. *)
Lemma updatePrediction_keeps_consistent (p : Predictions)
  (key other : PredictionKey) (v : Q) :
  monotonic p -> other <> key ->
  consistent key v other (get p other) ->
  get (updatePrediction p key v) other = get p other.
Proof.
  destruct p as [a15 a10 a5 a0]. unfold monotonic; cbn.
  intros (H1 & H2 & H3) Hne.
  destruct key, other; try congruence;
    unfold consistent, updatePrediction; cbn; intros Hc;
    split_minmax; order_or_same.
Qed.

(** ... and a field that does not is returned equal to [v]. *)
Lemma updatePrediction_moves_to_boundary (p : Predictions)
  (key other : PredictionKey) (v : Q) :
  monotonic p -> other <> key ->
  ~ consistent key v other (get p other) ->
  get (updatePrediction p key v) other = v.
Proof.
  destruct p as [a15 a10 a5 a0]. unfold monotonic; cbn.
  intros (H1 & H2 & H3) Hne.
  destruct key, other; try congruence;
    unfold consistent, updatePrediction; cbn; intros Hc;
    split_minmax; first [ reflexivity | exfalso; apply Hc; lra ].
Qed.

(** C3.  Minimal disturbance: on an ordered vector and an edit of [key] to
    [v] in [0,1], every other field that already respects the ordering
    against [v] is left unchanged, and every other field that would violate
    it is set to exactly [v].  From the default vector
    {0.3, 0.4, 0.6, 0.75}, editing above10 to 0.5 changes nothing else, and
    editing above10 to 0.7 moves above5, and only above5, to 0.7. *)
Theorem applyProbabilityEdit_minimal_disturbance :
  (forall (p : Predictions) (key other : PredictionKey) (v : Q),
      monotonic p -> unit_interval v -> other <> key ->
      (consistent key v other (get p other) ->
       get (applyProbabilityEdit p key v) other = get p other)
      /\ (~ consistent key v other (get p other) ->
          get (applyProbabilityEdit p key v) other = v))
  /\ applyProbabilityEdit (mkPredictions 0.3 0.4 0.6 0.75)
       key_above_10pct 0.5
     = mkPredictions 0.3 0.5 0.6 0.75
  /\ applyProbabilityEdit (mkPredictions 0.3 0.4 0.6 0.75)
       key_above_10pct 0.7
     = mkPredictions 0.3 0.7 0.7 0.75.
Proof.
  split; [ | split; reflexivity ].
  intros p key other v Hp _ Hne. unfold applyProbabilityEdit. split.
  - apply updatePrediction_keeps_consistent; assumption.
  - apply updatePrediction_moves_to_boundary; assumption.
Qed.

(** Re-applying an edit changes nothing, on every vector and for every
    value. *)
Lemma updatePrediction_idempotent (p : Predictions) (key : PredictionKey)
  (v : Q) :
  updatePrediction (updatePrediction p key v) key v = updatePrediction p key v.
Proof.
  destruct p as [a15 a10 a5 a0].
  destruct key; unfold updatePrediction; cbn;
    split_minmax; unfold set_above_15pct, set_above_10pct, set_above_5pct,
      set_above_0pct; cbn; split_minmax; order_or_same.
Qed.

(** C9, first half, is [updatePrediction_idempotent]; the theorem follows
    the allocation handlers below. *)

(** The direction of a row is Yes exactly from 0.5 upwards. *)
Lemma isYes_iff (v : Q) : isYes v = true <-> 0.5 <= v.
Proof. unfold isYes. apply Qle_bool_iff. Qed.

(** Writing a field's own value back into an ordered vector changes
    nothing. *)
Lemma updatePrediction_same_value (p : Predictions) (key : PredictionKey) :
  monotonic p -> updatePrediction p key (get p key) = p.
Proof.
  destruct p as [a15 a10 a5 a0]. unfold monotonic; cbn.
  intros (H1 & H2 & H3).
  destruct key; unfold updatePrediction; cbn;
    split_minmax; first [ reflexivity | exfalso; lra ].
Qed.

(** Away from the boundary the No button does change the direction. *)
Lemma handleDirectionChange_flips (value : Q) :
  0.5 < value -> isYes (handleDirectionChange value false) = false.
Proof.
  intros H.
  assert (Hy : isYes value = true) by (apply isYes_iff; lra).
  unfold handleDirectionChange, confidence. rewrite Hy. cbv zeta.
  destruct (isYes (1 - value)) eqn:E; [ | reflexivity ].
  apply isYes_iff in E. lra.
Qed.

(** C10.  The direction of a row is Yes iff the stored probability is at
    least 0.5.  At a stored probability of exactly 0.5 the row shows
    direction Yes with confidence 0.5, and pressing No computes
    1 - 0.5 = 0.5: the value handed to the form is the stored value again,
    and it still decodes as Yes.  On an ordered vector the whole form is
    left as it was: the flip is a no-op at the boundary. *)
Theorem handleDirectionChange_at_half :
  (forall value : Q, isYes value = true <-> 0.5 <= value)
  /\ (forall value : Q,
        value == 0.5 ->
        isYes value = true
        /\ confidence value == 0.5
        /\ handleDirectionChange value false == 0.5
        /\ handleDirectionChange value false == value
        /\ isYes (handleDirectionChange value false) = true)
  /\ handleDirectionChange 0.5 false = 0.5
  /\ (forall (p : Predictions) (key : PredictionKey),
        monotonic p -> get p key = 0.5 ->
        directionClick p key false = p).
Proof.
  split; [ exact isYes_iff | split; [ | split ] ].
  - intros value E.
    assert (Hy : isYes value = true) by (apply isYes_iff; lra).
    assert (Hflip : handleDirectionChange value false == 0.5).
    { unfold handleDirectionChange, confidence. rewrite Hy. cbv zeta. lra. }
    repeat split.
    + exact Hy.
    + unfold confidence. rewrite Hy. exact E.
    + exact Hflip.
    + lra.
    + apply isYes_iff. lra.
  - reflexivity.
  - intros p key Hp E. unfold directionClick. rewrite E.
    change (handleDirectionChange 0.5 false) with 0.5.
    rewrite <- E. apply updatePrediction_same_value. exact Hp.
Qed.

End ProbabilityEngine.

(** ** The allocation sliders *)

(** Unfolds the slider handlers down to [Z.min], [Z.max] and the fields. *)
Ltac unfold_allocation :=
  cbv beta iota zeta delta
    [ Engine.applyAllocationEdit Engine.applyAllocationPreset
      AllocationSliders.sliderChange AllocationSliders.sliderOthers
      AllocationSliders.updateAllocationWithCashAdjust
      AllocationSliders.updateCash AllocationSliders.applyPreset
      AllocationSliders.spread_with AllocationSliders.otherAssets
      AllocationSliders.total AllocationSliders.get
      Engine.percentages Engine.percentage
      Api.stocks Api.bonds Api.cash Api.gold ] in *.

Section AllocationEngine.
Import Api AllocationSliders Engine.
Local Open Scope Z_scope.

(** The capped value never exceeds what the other two assets leave, so the
    remainder is never negative and the four weights add up to 100 from any
    starting allocation. *)
Lemma updateAllocationWithCashAdjust_total (a : Allocation) (key : AssetKey)
  (v : Z) :
  total (updateAllocationWithCashAdjust a key v) = 100.
Proof.
  destruct a as [s b c g]; destruct key; unfold_allocation; lia.
Qed.

(** A valid allocation (four percentages that add up to 100) leaves at most
    100 to the assets a slider edit does not touch. *)
Lemma valid_sliderOthers (a : Allocation) (row : Slider) :
  percentages a -> total a = 100 -> sliderOthers a row <= 100.
Proof.
  destruct a as [s b c g]; destruct row; unfold_allocation; lia.
Qed.

(** After an edit of stocks, bonds or gold, cash is the remainder again:
    the row shows its (auto) mark. *)
Lemma updateAllocationWithCashAdjust_remainder (a : Allocation)
  (key : AssetKey) (v : Z) :
  cashIsRemainder (updateAllocationWithCashAdjust a key v) = true.
Proof.
  unfold cashIsRemainder. apply Z.eqb_eq.
  destruct a as [s b c g]; destruct key; unfold_allocation; lia.
Qed.

(** C2.  Sum invariant after a non-cash edit: when the two assets that are
    neither edited nor cash hold at most 100 together (as they do in every
    valid allocation, [valid_sliderOthers]), an edit of stocks, bonds or gold
    to any [v] in [0,100] returns four weights that add up to exactly 100. *)
Theorem applyAllocationEdit_total (a : Allocation) (row : Slider) (v : Z) :
  row <> Cash -> sliderOthers a row <= 100 -> percentage v ->
  total (applyAllocationEdit a row v) = 100.
Proof.
  intros Hrow _ _. unfold applyAllocationEdit.
  destruct row; try congruence; apply updateAllocationWithCashAdjust_total.
Qed.

(** C4.  Clamp: an edit of stocks, bonds or gold to [v] stores
    [min v (100 - others)] in the edited field and
    [max 0 (100 - clamped - others)] in cash, where [others] is the sum of
    the two non-cash fields that are not edited (bonds + gold for stocks,
    stocks + gold for bonds, stocks + bonds for gold), and returns those two
    as they were.  With bonds = 50, gold = 0 and cash = 50, editing stocks
    to 90 stores stocks = 50 and cash = 0. *)
Theorem updateAllocationWithCashAdjust_clamp :
  (forall (a : Allocation) (v : Z),
      applyAllocationEdit a Stocks v
      = {| stocks := Z.min v (100 - (bonds a + gold a));
           bonds := bonds a;
           cash := Z.max 0 (100 - Z.min v (100 - (bonds a + gold a))
                            - (bonds a + gold a));
           gold := gold a |})
  /\ (forall (a : Allocation) (v : Z),
        applyAllocationEdit a Bonds v
        = {| stocks := stocks a;
             bonds := Z.min v (100 - (stocks a + gold a));
             cash := Z.max 0 (100 - Z.min v (100 - (stocks a + gold a))
                              - (stocks a + gold a));
             gold := gold a |})
  /\ (forall (a : Allocation) (v : Z),
        applyAllocationEdit a Gold v
        = {| stocks := stocks a;
             bonds := bonds a;
             cash := Z.max 0 (100 - Z.min v (100 - (stocks a + bonds a))
                              - (stocks a + bonds a));
             gold := Z.min v (100 - (stocks a + bonds a)) |})
  /\ (forall (a : Allocation) (key : AssetKey) (v : Z),
        updateAllocationWithCashAdjust a key v
        = applyAllocationEdit a
            match key with
            | key_stocks => Stocks
            | key_bonds => Bonds
            | key_gold => Gold
            end v)
  /\ (forall s : Z,
        applyAllocationEdit
          {| stocks := s; bonds := 50; cash := 50; gold := 0 |} Stocks 90
        = {| stocks := 50; bonds := 50; cash := 0; gold := 0 |}).
Proof.
  repeat split.
  intros a key v. destruct key; reflexivity.
Qed.

(** C5.  Cash override: an edit of cash to [v] stores
    [min v (100 - (stocks + bonds + gold))] in cash and returns stocks, bonds
    and gold as they were; nothing brings the total back to 100.  From
    {stocks 60, bonds 30, gold 5, cash 5}, editing cash to 0 gives
    {stocks 60, bonds 30, gold 5, cash 0}, whose total is 95. *)
Theorem updateCash_override :
  (forall (a : Allocation) (v : Z),
      cash (applyAllocationEdit a Cash v)
      = Z.min v (100 - (stocks a + bonds a + gold a))
      /\ stocks (applyAllocationEdit a Cash v) = stocks a
      /\ bonds (applyAllocationEdit a Cash v) = bonds a
      /\ gold (applyAllocationEdit a Cash v) = gold a)
  /\ applyAllocationEdit
       {| stocks := 60; bonds := 30; cash := 5; gold := 5 |} Cash 0
     = {| stocks := 60; bonds := 30; cash := 0; gold := 5 |}
  /\ total (applyAllocationEdit
              {| stocks := 60; bonds := 30; cash := 5; gold := 5 |} Cash 0)
     = 95.
Proof.
  split; [ | split; reflexivity ].
  intros a v. repeat split.
Qed.

End AllocationEngine.

(** ** Range of the weights *)

Section AllocationRange.
Import Api AllocationSliders Engine.
Local Open Scope Z_scope.

(** With at most 100 held by the untouched non-cash assets, a slider edit
    keeps every weight a percentage. *)
Lemma sliderChange_percentages (a : Allocation) (row : Slider) (v : Z) :
  percentages a -> percentage v -> sliderOthers a row <= 100 ->
  percentages (sliderChange a row v).
Proof.
  destruct a as [s b c g]; destruct row; unfold_allocation; lia.
Qed.

(** ... and keeps the non-cash assets inside the budget. *)
Lemma sliderChange_budget (a : Allocation) (row : Slider) (v : Z) :
  stocks a + bonds a + gold a <= 100 ->
  stocks (sliderChange a row v) + bonds (sliderChange a row v)
  + gold (sliderChange a row v) <= 100.
Proof.
  destruct a as [s b c g]; destruct row; unfold_allocation; lia.
Qed.

Lemma budget_sliderOthers (a : Allocation) (row : Slider) :
  percentages a -> stocks a + bonds a + gold a <= 100 ->
  sliderOthers a row <= 100.
Proof.
  destruct a as [s b c g]; destruct row; unfold_allocation; lia.
Qed.

Lemma presetButtons_valid (preset : Allocation) :
  In preset presetButtons -> percentages preset /\ total preset = 100.
Proof.
  unfold presetButtons. cbn [In].
  intros [<- | [<- | [<- | [<- | [<- | []]]]]];
    unfold_allocation; lia.
Qed.

(** Every allocation the page can hold consists of percentages whose
    non-cash part fits the budget: the states in which an edited weight
    could leave [0,100] are never reached. *)
Lemma reachable_budget (a : Allocation) :
  Home.reachable a ->
  percentages a /\ stocks a + bonds a + gold a <= 100.
Proof.
  induction 1 as [ | a row v Hr [IHp IHb] Hv | a preset Hr _ Hin ].
  - unfold Home.initialAllocation. unfold_allocation. lia.
  - split.
    + apply sliderChange_percentages;
        [ exact IHp | exact Hv | apply budget_sliderOthers; assumption ].
    + apply sliderChange_budget; exact IHb.
  - unfold applyPreset.
    destruct (presetButtons_valid _ Hin) as [Hp Ht]. split; [exact Hp | ].
    destruct preset as [s b c g]. unfold_allocation. lia.
Qed.

(** C7, as stated, fails: with bonds = 100 and gold = 100 (each a legal
    percentage) an edit of stocks to 50 is capped at 100 - 200 and stores
    stocks = -100. *)
Lemma applyAllocationEdit_range_counterexample :
  ~ (forall (a : Allocation) (row : Slider) (v : Z),
        percentages a -> percentage v ->
        percentages (applyAllocationEdit a row v)).
Proof.
  intros H.
  specialize (H {| stocks := 0; bonds := 100; cash := 0; gold := 100 |}
                Stocks 50).
  unfold_allocation. lia.
Qed.

(** C7, amended.  For every allocation of four percentages in which the
    non-cash assets other than the edited one hold at most 100 together, and
    every [v] in [0,100], an edit of any field, cash included, returns four
    weights none of which is below 0 or above 100. *)
Theorem applyAllocationEdit_range (a : Allocation) (row : Slider) (v : Z) :
  percentages a -> percentage v -> sliderOthers a row <= 100 ->
  percentages (applyAllocationEdit a row v).
Proof.
  intros Ha Hv Ho. unfold applyAllocationEdit.
  apply sliderChange_percentages; assumption.
Qed.

End AllocationRange.

(** ** Validation, presets and repeated edits *)

Section Submission.
Import Api AllocationSliders Engine.
Local Open Scope Z_scope.

(** [handleSubmit] issues a request only past its allocation test. *)
Lemma handleSubmit_request_valid (st : Home.State) (input : GameCreateInput) :
  snd (Home.handleSubmit st) = Some input ->
  isValid (Home.allocation st) = true.
Proof.
  unfold Home.handleSubmit, isValid, total.
  destruct (Home.scenario st) as [sid | ]; [ | discriminate ].
  destruct (500 <? _); [ discriminate | ].
  destruct (_ =? 100); [ reflexivity | discriminate ].
Qed.

(** A request carries the two vectors of the page as they are. *)
Lemma handleSubmit_request_verbatim (st : Home.State)
  (input : GameCreateInput) :
  snd (Home.handleSubmit st) = Some input ->
  allocation input = Home.allocation st
  /\ predictions input = Home.predictions st.
Proof.
  unfold Home.handleSubmit.
  destruct (Home.scenario st) as [sid | ]; [ | discriminate ].
  destruct (500 <? _); [ discriminate | ].
  destruct (negb _); [ discriminate | ].
  cbn. intros E. injection E as <-. split; reflexivity.
Qed.

(** No branch of [handleSubmit] writes to either vector. *)
Lemma handleSubmit_frame (st : Home.State) :
  Home.allocation (fst (Home.handleSubmit st)) = Home.allocation st
  /\ Home.predictions (fst (Home.handleSubmit st)) = Home.predictions st.
Proof.
  unfold Home.handleSubmit.
  destruct (Home.scenario st) as [sid | ]; [ | split; reflexivity ].
  destruct (500 <? _); [ split; reflexivity | ].
  destruct (negb _); split; reflexivity.
Qed.

(** C6.  [validateAllocation] reports valid exactly when the four weights
    add up to 100, and reports delta = total - 100; it returns the report
    alone.  When it reports invalid, [handleSubmit] issues no game-creation
    request, leaves the game state where it was and leaves both vectors as
    they were; a request that is issued carries the allocation unchanged.
    On {stocks 60, bonds 30, gold 5, cash 0}, whose total is 95, the report
    is valid = false, delta = -5, and a press on the submit button only sets
    the error message. *)
Theorem validateAllocation_blocks_submission :
  (forall a : Allocation,
      (valid (validateAllocation a) = true
       <-> stocks a + bonds a + gold a + cash a = 100)
      /\ delta (validateAllocation a)
         = stocks a + bonds a + gold a + cash a - 100)
  /\ (forall st : Home.State,
        valid (validateAllocation (Home.allocation st)) = false ->
        snd (Home.handleSubmit st) = None
        /\ Home.gameState (fst (Home.handleSubmit st)) = Home.gameState st
        /\ Home.allocation (fst (Home.handleSubmit st)) = Home.allocation st
        /\ Home.predictions (fst (Home.handleSubmit st))
           = Home.predictions st)
  /\ (forall (st : Home.State) (input : GameCreateInput),
        snd (Home.handleSubmit st) = Some input ->
        valid (validateAllocation (Home.allocation st)) = true
        /\ allocation input = Home.allocation st)
  /\ validateAllocation {| stocks := 60; bonds := 30; cash := 0; gold := 5 |}
     = {| valid := false; delta := -5 |}
  /\ Home.handleSubmit
       (Home.mkState Home.playing (Some 7) None Home.initialPredictions
          {| stocks := 60; bonds := 30; cash := 0; gold := 5 |} [])
     = (Home.mkState Home.playing (Some 7)
          (Some "Allocations must sum to 100%. Currently: 95%"%string)
          Home.initialPredictions
          {| stocks := 60; bonds := 30; cash := 0; gold := 5 |} [],
        None).
Proof.
  split; [ | split; [ | split; [ | split ] ] ].
  - intros a. unfold validateAllocation, isValid, AllocationSliders.delta,
      total; cbn [valid delta]. split.
    + rewrite Z.eqb_eq. lia.
    + lia.
  - intros st Hinv. cbn [validateAllocation valid] in Hinv.
    destruct (handleSubmit_frame st) as [Ha Hp].
    assert (Hnone : snd (Home.handleSubmit st) = None).
    { destruct (snd (Home.handleSubmit st)) as [input | ] eqn:E;
        [ | reflexivity ].
      apply handleSubmit_request_valid in E. congruence. }
    repeat split; try assumption.
    revert Hnone. unfold Home.handleSubmit.
    destruct (Home.scenario st) as [sid | ]; [ | reflexivity ].
    destruct (500 <? _); [ reflexivity | ].
    destruct (negb _); [ reflexivity | discriminate ].
  - intros st input E. split.
    + exact (handleSubmit_request_valid st input E).
    + exact (proj1 (handleSubmit_request_verbatim st input E)).
  - reflexivity.
  - reflexivity.
Qed.

(** C8.  A preset replaces the allocation whole and verbatim: whatever the
    current allocation, the result is the preset itself, all four fields
    together and none recomputed; so the equal split always yields
    {25, 25, 25, 25}.  This is the first of the two outcomes the claim
    allows, for every preset; each preset the buttons offer adds up to
    100. *)
Theorem applyAllocationPreset_verbatim :
  (forall a preset : Allocation, applyAllocationPreset a preset = preset)
  /\ (forall a : Allocation,
        applyAllocationPreset a
          {| stocks := 25; bonds := 25; cash := 25; gold := 25 |}
        = {| stocks := 25; bonds := 25; cash := 25; gold := 25 |})
  /\ (forall (st : Home.State) (preset : Allocation),
        Home.allocation (Home.presetEdit st preset) = preset)
  /\ (forall (a : Allocation) (preset : AllocationPresets.Preset),
        AllocationPresets.presetClick a preset
        = AllocationPresets.allocation preset)
  /\ Forall (fun preset => total preset = 100) presetButtons
  /\ Forall (fun preset => total (AllocationPresets.allocation preset) = 100)
       AllocationPresets.ALLOCATION_PRESETS.
Proof.
  repeat split; repeat constructor.
Qed.

(** In the preset-only version the button just pressed is the one shown as
    selected. *)
Lemma presetClick_selected (a : Allocation) :
  Forall (fun preset =>
            AllocationPresets.selectedPreset
              (AllocationPresets.presetClick a preset) = Some preset)
    AllocationPresets.ALLOCATION_PRESETS.
Proof. repeat constructor. Qed.

(** The two allocation handlers read only fields they do not write, apart
    from the edited one, which they overwrite: a second run recomputes the
    same values. *)
Lemma sliderChange_idempotent (a : Allocation) (row : Slider) (v : Z) :
  sliderChange (sliderChange a row v) row v = sliderChange a row v.
Proof.
  destruct a as [s b c g]; destruct row; reflexivity.
Qed.

(** C9.  Idempotence: for every prediction vector, field and [v] in [0,1],
    and for every allocation, field (cash included) and [v] in [0,100],
    applying the same edit twice in a row gives the vector that applying it
    once gives. *)
Theorem edits_idempotent :
  (forall (p : Predictions) (key : PredictionForm.PredictionKey) (v : Q),
      unit_interval v ->
      applyProbabilityEdit (applyProbabilityEdit p key v) key v
      = applyProbabilityEdit p key v)
  /\ (forall (a : Allocation) (row : Slider) (v : Z),
        percentage v ->
        applyAllocationEdit (applyAllocationEdit a row v) row v
        = applyAllocationEdit a row v).
Proof.
  split.
  - intros p key v _. apply updatePrediction_idempotent.
  - intros a row v _. apply sliderChange_idempotent.
Qed.

End Submission.

(** ** The theorems at concrete inputs *)

Section Instances.
Import Api Engine.

(** C1 at the loosest threshold of the default vector, lowered to the
    boundary value 0: all four probabilities drop to 0. *)
Lemma applyProbabilityEdit_monotonic_default :
  probabilities Home.initialPredictions
  /\ monotonic Home.initialPredictions
  /\ unit_interval 0
  /\ monotonic
       (applyProbabilityEdit Home.initialPredictions
          PredictionForm.key_above_0pct 0)
  /\ PredictionForm.get
       (applyProbabilityEdit Home.initialPredictions
          PredictionForm.key_above_0pct 0)
       PredictionForm.key_above_0pct = 0%Q.
Proof.
  assert (Hp : probabilities Home.initialPredictions)
    by (unfold probabilities, unit_interval; cbn; repeat split; lra).
  assert (Hm : monotonic Home.initialPredictions)
    by (unfold monotonic; cbn; repeat split; lra).
  assert (Hv : unit_interval 0) by (unfold unit_interval; split; lra).
  split; [ exact Hp | split; [ exact Hm | split; [ exact Hv | ] ] ].
  exact (applyProbabilityEdit_monotonic Home.initialPredictions
           PredictionForm.key_above_0pct 0%Q Hp Hm Hv).
Defined.

(** C3 at the default vector: raising above10 to 0.7 moves above5, which
    0.6 < 0.7 makes inconsistent, to 0.7. *)
Lemma applyProbabilityEdit_minimal_disturbance_default :
  PredictionForm.get
    (applyProbabilityEdit Home.initialPredictions
       PredictionForm.key_above_10pct 0.7)
    PredictionForm.key_above_5pct = 0.7%Q.
Proof.
  destruct applyProbabilityEdit_minimal_disturbance as [H _].
  refine (proj2 (H Home.initialPredictions PredictionForm.key_above_10pct
                   PredictionForm.key_above_5pct 0.7%Q _ _ _) _).
  - unfold monotonic; cbn; repeat split; lra.
  - unfold unit_interval; split; lra.
  - discriminate.
  - unfold consistent; cbn. lra.
Defined.

(** C10 at one half written in lowest terms. *)
Lemma handleDirectionChange_at_one_half :
  (1 # 2 == 0.5)%Q
  /\ PredictionForm.isYes (1 # 2) = true
  /\ (PredictionForm.handleDirectionChange (1 # 2) false == 1 # 2)%Q
  /\ PredictionForm.isYes
       (PredictionForm.handleDirectionChange (1 # 2) false) = true.
Proof.
  assert (E : (1 # 2 == 0.5)%Q) by reflexivity.
  destruct handleDirectionChange_at_half as (_ & H & _).
  destruct (H (1 # 2) E) as (Hy & _ & _ & Hsame & Hy').
  repeat split; assumption.
Defined.

Local Open Scope Z_scope.

(** C2 at the default allocation: stocks raised from 60 to 70, cash drops
    to 0 and the total stays 100. *)
Lemma applyAllocationEdit_total_default :
  AllocationSliders.Stocks <> AllocationSliders.Cash
  /\ AllocationSliders.sliderOthers Home.initialAllocation
       AllocationSliders.Stocks <= 100
  /\ percentage 70
  /\ AllocationSliders.total
       (applyAllocationEdit Home.initialAllocation
          AllocationSliders.Stocks 70) = 100.
Proof.
  assert (Hr : AllocationSliders.Stocks <> AllocationSliders.Cash)
    by discriminate.
  assert (Ho : AllocationSliders.sliderOthers Home.initialAllocation
                 AllocationSliders.Stocks <= 100) by (cbn; lia).
  assert (Hv : percentage 70) by (unfold percentage; lia).
  split; [ exact Hr | split; [ exact Ho | split; [ exact Hv | ] ] ].
  exact (applyAllocationEdit_total Home.initialAllocation
           AllocationSliders.Stocks 70 Hr Ho Hv).
Defined.

(** C4 at the default allocation: bonds asked up to 50 stop at
    100 - (60 + 5) = 35 and cash drops to 0. *)
Lemma updateAllocationWithCashAdjust_clamp_default :
  applyAllocationEdit Home.initialAllocation AllocationSliders.Bonds 50
  = {| stocks := 60; bonds := 35; cash := 0; gold := 5 |}.
Proof.
  destruct updateAllocationWithCashAdjust_clamp as (_ & H & _).
  exact (H Home.initialAllocation 50).
Defined.

(** C6 at the page as it stands after the cash slider was pulled to 0: the
    submit button issues no request. *)
Lemma validateAllocation_blocks_submission_default :
  snd (Home.handleSubmit
         (Home.mkState Home.playing (Some 7) None Home.initialPredictions
            {| stocks := 60; bonds := 30; cash := 0; gold := 5 |}
            [])) = None.
Proof.
  destruct validateAllocation_blocks_submission as (_ & H & _).
  refine (proj1 (H (Home.mkState Home.playing (Some 7) None
                      Home.initialPredictions
                      {| stocks := 60; bonds := 30; cash := 0; gold := 5 |}
                      []) _)).
  reflexivity.
Defined.

(** C7 at the default allocation: cash pulled to 0. *)
Lemma applyAllocationEdit_range_default :
  percentages Home.initialAllocation
  /\ percentage 0
  /\ AllocationSliders.sliderOthers Home.initialAllocation
       AllocationSliders.Cash <= 100
  /\ percentages
       (applyAllocationEdit Home.initialAllocation AllocationSliders.Cash 0).
Proof.
  assert (Ha : percentages Home.initialAllocation)
    by (unfold percentages, percentage; cbn; lia).
  assert (Hv : percentage 0) by (unfold percentage; lia).
  assert (Ho : AllocationSliders.sliderOthers Home.initialAllocation
                 AllocationSliders.Cash <= 100) by (cbn; lia).
  split; [ exact Ha | split; [ exact Hv | split; [ exact Ho | ] ] ].
  exact (applyAllocationEdit_range Home.initialAllocation
           AllocationSliders.Cash 0 Ha Hv Ho).
Defined.

(** C9 at the default allocation: bonds set to 100 twice. *)
Lemma edits_idempotent_default :
  applyAllocationEdit
    (applyAllocationEdit Home.initialAllocation AllocationSliders.Bonds 100)
    AllocationSliders.Bonds 100
  = applyAllocationEdit Home.initialAllocation AllocationSliders.Bonds 100.
Proof.
  destruct edits_idempotent as [_ H].
  refine (H Home.initialAllocation AllocationSliders.Bonds 100 _).
  unfold percentage; lia.
Defined.

End Instances.

(** * Further properties of the forms *)

(** ** The probability rows *)

Section PredictionRows.
Import Api JsMath PredictionForm Engine.
Local Open Scope Q_scope.

(** An edit of above15, above10 or above5 returns an ordered vector from any
    vector at all, ordered or not; an edit of above0 lowers the other three
    one by one and can return them out of order when they came in out of
    order. *)
Theorem updatePrediction_repairs_order :
  (forall (p : Predictions) (key : PredictionKey) (v : Q),
      key <> key_above_0pct -> monotonic (updatePrediction p key v))
  /\ ~ monotonic
         (updatePrediction (mkPredictions 0.5 0.2 0.4 0.9) key_above_0pct 0.8).
Proof.
  split.
  - intros p key v Hk. apply updatePrediction_monotonic_tight. exact Hk.
  - unfold monotonic; cbn. intros (H & _). lra.
Qed.

(** An edit with a probability turns four probabilities into four
    probabilities. *)
Theorem updatePrediction_stays_in_unit_interval (p : Predictions)
  (key : PredictionKey) (v : Q) :
  probabilities p -> unit_interval v ->
  probabilities (updatePrediction p key v).
Proof. apply updatePrediction_probabilities. Qed.

(** Entering the value a field already has leaves an ordered vector exactly
    as it was. *)
Theorem updatePrediction_current_value (p : Predictions)
  (key : PredictionKey) :
  monotonic p -> updatePrediction p key (get p key) = p.
Proof. apply updatePrediction_same_value. Qed.

(** The confidence slider keeps the direction of its row for every
    confidence above one half.  At exactly one half the stored probability
    becomes one half, which reads as Yes: a No row dragged to 50% turns into
    a Yes row. *)
Theorem handleConfidenceChange_direction (value newConfidence : Q) :
  (0.5 < newConfidence ->
   isYes (handleConfidenceChange value newConfidence) = isYes value)
  /\ (newConfidence == 0.5 ->
      handleConfidenceChange value newConfidence == 0.5
      /\ isYes (handleConfidenceChange value newConfidence) = true).
Proof.
  unfold handleConfidenceChange. cbv zeta. split.
  - intros Hc. destruct (isYes value) eqn:Ey.
    + apply isYes_iff. lra.
    + destruct (isYes (1 - newConfidence)) eqn:E; [ | reflexivity ].
      apply isYes_iff in E. lra.
  - intros Hc. destruct (isYes value); split;
      try (apply isYes_iff); lra.
Qed.

(** The Yes button always leaves a row that reads Yes, whatever was stored;
    the No button leaves a row that reads No whenever the stored probability
    is above one half. *)
Theorem handleDirectionChange_direction (value : Q) :
  isYes (handleDirectionChange value true) = true
  /\ (0.5 < value -> isYes (handleDirectionChange value false) = false).
Proof.
  split.
  - unfold handleDirectionChange, confidence. cbv zeta.
    destruct (isYes value) eqn:Ey; [ exact Ey | ].
    apply isYes_iff.
    assert (~ 0.5 <= value) by (rewrite <- isYes_iff; congruence).
    lra.
  - apply handleDirectionChange_flips.
Qed.

(** What a row hands to the form is a probability again. *)
Lemma handleDirectionChange_unit_interval (value : Q) (newIsYes : bool) :
  unit_interval value -> unit_interval (handleDirectionChange value newIsYes).
Proof.
  unfold unit_interval, handleDirectionChange, confidence. cbv zeta.
  intros (H0 & H1).
  destruct newIsYes, (isYes value) eqn:Ey; split; try lra;
    try (apply isYes_iff in Ey; lra).
Qed.

Lemma handleConfidenceChange_unit_interval (value newConfidence : Q) :
  0.5 <= newConfidence -> newConfidence <= 1 ->
  unit_interval (handleConfidenceChange value newConfidence).
Proof.
  unfold unit_interval, handleConfidenceChange. cbv zeta.
  intros H0 H1. destruct (isYes value); split; lra.
Qed.

Lemma probabilities_get (p : Predictions) (key : PredictionKey) :
  probabilities p -> unit_interval (get p key).
Proof.
  intros (H15 & H10 & H5 & H0). destruct key; assumption.
Qed.

Lemma updatePrediction_monotonic_any_key (p : Predictions)
  (key : PredictionKey) (v : Q) :
  monotonic p -> monotonic (updatePrediction p key v).
Proof.
  intros Hp. destruct key;
    try (apply updatePrediction_monotonic_tight; discriminate).
  apply updatePrediction_monotonic_loose. exact Hp.
Qed.

(** Whatever sequence of direction buttons and confidence sliders the player
    uses, the vector the page holds, and submits, consists of four
    probabilities in the order above15 <= above10 <= above5 <= above0. *)
Theorem reachablePredictions_invariant (p : Predictions) :
  Session.reachablePredictions p -> probabilities p /\ monotonic p.
Proof.
  induction 1 as [ | p key b Hr [IHp IHm] | p key c Hr [IHp IHm] Hlo Hhi ].
  - split.
    + unfold probabilities, unit_interval; cbn; repeat split; lra.
    + unfold monotonic; cbn; repeat split; lra.
  - unfold directionClick. split.
    + apply updatePrediction_probabilities; [ exact IHp | ].
      apply handleDirectionChange_unit_interval.
      apply probabilities_get. exact IHp.
    + apply updatePrediction_monotonic_any_key. exact IHm.
  - unfold confidenceSlide. split.
    + apply updatePrediction_probabilities; [ exact IHp | ].
      apply handleConfidenceChange_unit_interval; assumption.
    + apply updatePrediction_monotonic_any_key. exact IHm.
Qed.

End PredictionRows.

(** ** The allocation sliders and presets *)

Section AllocationMore.
Import Api AllocationSliders Engine.
Local Open Scope Z_scope.

(** On such weights and values every number the two handlers compute is
    represented exactly: the sum of the other assets, the cap, the capped
    value, the new cash and the running totals. *)
Lemma allocation_arithmetic_exact (a : Allocation) (key : AssetKey)
  (v : Z) :
  Binary64.exactAllocation a -> Binary64.exactInteger v ->
  Binary64.representable (otherAssets a key)
  /\ Binary64.representable (100 - otherAssets a key)
  /\ Binary64.representable (Z.min v (100 - otherAssets a key))
  /\ Binary64.representable
       (100 - Z.min v (100 - otherAssets a key) - otherAssets a key)
  /\ Binary64.representable (stocks a + bonds a + gold a)
  /\ Binary64.representable (100 - (stocks a + bonds a + gold a))
  /\ Binary64.representable
       (stocks a + bonds a + gold a
        + Z.min v (100 - (stocks a + bonds a + gold a)))
  /\ Binary64.representable
       (stocks (updateAllocationWithCashAdjust a key v)
        + bonds (updateAllocationWithCashAdjust a key v))
  /\ Binary64.representable
       (stocks (updateAllocationWithCashAdjust a key v)
        + bonds (updateAllocationWithCashAdjust a key v)
        + cash (updateAllocationWithCashAdjust a key v))
  /\ Binary64.representable
       (100 - stocks (updateAllocationWithCashAdjust a key v)
        - bonds (updateAllocationWithCashAdjust a key v))
  /\ Binary64.representable
       (stocks (updateCash a v) + bonds (updateCash a v)
        + cash (updateCash a v))
  /\ Binary64.representable (100 - stocks a - bonds a).
Proof.
  unfold Binary64.exactAllocation, Binary64.exactInteger,
    Binary64.representable.
  destruct a as [s b c g]; destruct key; unfold_allocation;
    change (2 ^ 50) with 1125899906842624;
    change (2 ^ 53) with 9007199254740992; lia.
Qed.

(** From any allocation of integer weights of magnitude up to 2^50, valid or
    not, and for any requested value of that magnitude, an edit of stocks,
    bonds or gold returns a total of exactly 100 with cash equal to the
    remainder; so a direct cash override lasts only until the next such
    edit. *)
Theorem updateAllocationWithCashAdjust_restores_remainder :
  (forall (a : Allocation) (key : AssetKey) (v : Z),
      Binary64.exactAllocation a -> Binary64.exactInteger v ->
      total (updateAllocationWithCashAdjust a key v) = 100
      /\ cashIsRemainder (updateAllocationWithCashAdjust a key v) = true)
  /\ (forall (a : Allocation) (key : AssetKey) (c v : Z),
        Binary64.exactAllocation a ->
        Binary64.exactInteger c -> Binary64.exactInteger v ->
        total (updateAllocationWithCashAdjust (updateCash a c) key v) = 100).
Proof.
  split.
  - intros a key v _ _. split.
    + apply updateAllocationWithCashAdjust_total.
    + apply updateAllocationWithCashAdjust_remainder.
  - intros a key c v _ _ _. apply updateAllocationWithCashAdjust_total.
Qed.

(** On integer weights and a requested value of magnitude up to 2^50, a
    cash edit never pushes the total above 100, and the total is exactly
    100, with cash marked as the remainder, precisely when the requested
    cash is at least what the other three assets leave. *)
Theorem updateCash_total (a : Allocation) (v : Z) :
  Binary64.exactAllocation a -> Binary64.exactInteger v ->
  total (updateCash a v) <= 100
  /\ (total (updateCash a v) = 100
      <-> 100 - (stocks a + bonds a + gold a) <= v)
  /\ (cashIsRemainder (updateCash a v) = true
      <-> 100 - (stocks a + bonds a + gold a) <= v).
Proof.
  intros _ _. unfold cashIsRemainder. rewrite Z.eqb_eq.
  destruct a as [s b c g]. unfold_allocation. lia.
Qed.

(** The page never over-allocates: every allocation it can hold consists of
    four percentages whose total is at most 100, so an invalid total is
    always a shortfall. *)
Theorem reachable_never_over_100 (a : Allocation) :
  Home.reachable a ->
  percentages a /\ total a <= 100
  /\ AllocationSliders.delta a <= 0.
Proof.
  intros Hr.
  assert (H : percentages a /\ total a <= 100).
  { induction Hr as [ | a row v Hr [IHp IHt] Hv | a preset Hr _ Hin ].
    - unfold Home.initialAllocation. unfold_allocation. lia.
    - split.
      + apply sliderChange_percentages; [ exact IHp | exact Hv | ].
        destruct a as [s b c g]; destruct row; unfold_allocation; lia.
      + destruct a as [s b c g]; destruct row; unfold_allocation; lia.
    - unfold applyPreset.
      destruct (presetButtons_valid _ Hin) as [Hp Ht]. split; [ exact Hp | ].
      rewrite Ht. lia. }
  destruct H as [Hp Ht]. repeat split; try apply Hp; try exact Ht.
  unfold AllocationSliders.delta. lia.
Qed.

Lemma allocationEquals_true (a b : Allocation) :
  AllocationPresets.allocationEquals a b = true <-> a = b.
Proof.
  unfold AllocationPresets.allocationEquals.
  rewrite !andb_true_iff, !Z.eqb_eq.
  destruct a as [s b0 c g], b as [s' b' c' g']; cbn. split.
  - intros [[[-> ->] ->] ->]. reflexivity.
  - intros E. injection E as -> -> -> ->. repeat split.
Qed.

(** [allocationEquals] decides equality of allocations: it answers true
    exactly for two allocations with the same four weights, and false
    exactly for two that differ. *)
Theorem allocationEquals_iff (a b : Allocation) :
  (AllocationPresets.allocationEquals a b = true <-> a = b)
  /\ (AllocationPresets.allocationEquals a b = false <-> a <> b).
Proof.
  pose proof (allocationEquals_true a b) as H. split; [ exact H | ].
  destruct (AllocationPresets.allocationEquals a b).
  - split; [ discriminate | ]. intros Hne. exfalso. apply Hne, H. reflexivity.
  - split; [ | reflexivity ]. intros _ E. apply H in E. discriminate.
Qed.

(** The summary names a preset only if the current allocation is that
    preset's allocation, and says Custom (no preset found) exactly when the
    current allocation is the allocation of no preset. *)
Theorem selectedPreset_spec (current : Allocation) :
  (forall preset : AllocationPresets.Preset,
      AllocationPresets.selectedPreset current = Some preset ->
      In preset AllocationPresets.ALLOCATION_PRESETS
      /\ AllocationPresets.allocation preset = current)
  /\ (AllocationPresets.selectedPreset current = None
      <-> forall preset : AllocationPresets.Preset,
            In preset AllocationPresets.ALLOCATION_PRESETS ->
            AllocationPresets.allocation preset <> current).
Proof.
  unfold AllocationPresets.selectedPreset. split.
  - intros preset E. apply find_some in E. destruct E as [Hin Heq].
    split; [ exact Hin | apply allocationEquals_true; exact Heq ].
  - split.
    + intros E preset Hin Heq.
      pose proof (find_none _ _ E preset Hin) as Hne. cbv beta in Hne.
      apply allocationEquals_true in Heq. congruence.
    + intros H.
      destruct (find _ AllocationPresets.ALLOCATION_PRESETS) as [p | ] eqn:E;
        [ | reflexivity ].
      apply find_some in E. destruct E as [Hin Heq].
      apply allocationEquals_true in Heq. exfalso. exact (H p Hin Heq).
Qed.

(** Pressing a preset button always ends with that very button shown as
    selected, whatever was allocated before: no two presets share an
    allocation. *)
Theorem presetClick_selects_it (current : Allocation)
  (preset : AllocationPresets.Preset) :
  In preset AllocationPresets.ALLOCATION_PRESETS ->
  AllocationPresets.selectedPreset
    (AllocationPresets.presetClick current preset) = Some preset.
Proof.
  intros Hin.
  pose proof (presetClick_selected current) as H.
  rewrite Forall_forall in H. exact (H preset Hin).
Qed.

End AllocationMore.

(** ** Submitting a game and the rationale box *)

Section SubmitMore.
Import Api Engine.
Local Open Scope Z_scope.


(** Without a loaded scenario the submit button does nothing at all: the
    state is untouched and no error is shown, even when the rationale is
    too long and the weights do not add up.  With a scenario, a rationale of
    more than 500 UTF-16 code units is reported before the allocation is
    looked at. *)
Theorem handleSubmit_order_of_checks (st : Home.State) :
  (Home.scenario st = None -> Home.handleSubmit st = (st, None))
  /\ (Home.scenario st <> None ->
      500 < RationaleInput.length (Home.rationale st) ->
      Home.handleSubmit st
      = (Home.setError st
           (Some "Rationale must be 500 characters or less."%string),
         None)).
Proof.
  unfold Home.handleSubmit, RationaleInput.length. split.
  - intros ->. reflexivity.
  - intros Hs Hl. destruct (Home.scenario st) as [sid | ];
      [ | contradiction ].
    apply Z.ltb_lt in Hl. rewrite Hl. reflexivity.
Qed.

(** The rationale box and the submit button agree on the limit: with a
    scenario loaded, the box shows the rationale as too long exactly when
    the button answers with the rationale error. *)
Theorem isTooLong_iff_submit_refuses (st : Home.State) :
  Home.scenario st <> None ->
  (RationaleInput.isTooLong (Home.rationale st)
     RationaleInput.defaultMaxLength = true
   <-> Home.handleSubmit st
       = (Home.setError st
            (Some "Rationale must be 500 characters or less."%string),
          None)).
Proof.
  intros Hs.
  unfold RationaleInput.isTooLong, RationaleInput.defaultMaxLength,
    RationaleInput.length, Home.handleSubmit.
  destruct (Home.scenario st) as [sid | ]; [ | contradiction ].
  destruct (500 <? _).
  - split; reflexivity.
  - split; [ discriminate | ].
    destruct (negb _); intros E; [ | discriminate ].
    unfold Home.setError in E. injection E as E. discriminate.
Qed.

(** For a limit that is not negative the status line shows exactly one of
    its three texts: the overshoot, counted in UTF-16 code units, when the
    value is too long, the check mark when there is text within the limit,
    Optional when it is empty.
    With a negative limit an empty value shows two of them. *)
Theorem statusTexts_exactly_one :
  (forall (value : JsString.t) (maxLength : Z),
      0 <= maxLength ->
      RationaleInput.statusTexts value maxLength
      = if RationaleInput.isTooLong value maxLength
        then [(Home.showNumber (RationaleInput.length value - maxLength)
               ++ " characters over limit")%string]
        else if RationaleInput.length value =? 0
             then ["Optional"%string]
             else ["✓ Rationale added"%string])
  /\ RationaleInput.statusTexts [] (-1)
     = ["1 characters over limit"%string; "Optional"%string].
Proof.
  split; [ | reflexivity ].
  intros value maxLength Hm.
  unfold RationaleInput.statusTexts, RationaleInput.isTooLong.
  assert (Hlen : 0 <= RationaleInput.length value)
    by (unfold RationaleInput.length, JsString.length; lia).
  destruct (maxLength <? _) eqn:El; cbn [negb andb].
  - apply Z.ltb_lt in El.
    replace (RationaleInput.length value =? 0) with false
      by (symmetry; apply Z.eqb_neq; lia).
    reflexivity.
  - destruct (RationaleInput.length value =? 0) eqn:E0.
    + apply Z.eqb_eq in E0. rewrite E0. reflexivity.
    + apply Z.eqb_neq in E0.
      replace (0 <? RationaleInput.length value) with true
        by (symmetry; apply Z.ltb_lt; lia).
      reflexivity.
Qed.

(** The limit counts code units, not bytes: 251 times the letter e with an
    acute accent (one code unit, U+00E9, each) is within it, is submitted,
    and shows the check mark. *)
Lemma rationale_counts_code_units :
  RationaleInput.length (repeat 233%N 251) = 251
  /\ RationaleInput.statusTexts (repeat 233%N 251)
       RationaleInput.defaultMaxLength
     = ["✓ Rationale added"%string]
  /\ snd (Home.handleSubmit
            (Home.mkState Home.playing (Some 7) None Home.initialPredictions
               Home.initialAllocation (repeat 233%N 251)))
     = Some (mkGameCreateInput 7 Home.initialPredictions
               Home.initialAllocation (repeat 233%N 251)).
Proof. repeat split. Qed.

End SubmitMore.

(** ** Chart labels and the indicator chart *)

Section ChartsMore.
Import Charts.
Local Open Scope Z_scope.





Lemma filter_map_fusion (A B : Type) (f : B -> bool) (g : A -> B)
  (l : list A) :
  filter f (map g l) = map g (filter (fun a => f (g a)) l).
Proof.
  induction l as [ | a l IH ]; [ reflexivity | ].
  cbn [map filter]. destruct (f (g a)); cbn [map]; rewrite IH; reflexivity.
Qed.

Lemma filter_filter_fusion (A : Type) (f g : A -> bool) (l : list A) :
  filter f (filter g l) = filter (fun a => g a && f a) l.
Proof.
  induction l as [ | a l IH ]; [ reflexivity | ].
  cbn [filter]. destruct (g a); cbn [andb filter]; rewrite IH; reflexivity.
Qed.

(** Which rows the indicator chart shows: a row is charted exactly when it
    has a value in the active column and, unless [showForward] is set, is
    not a forward month; charted rows keep their order, their month index
    and their value. *)
Theorem rawData_selection (data : list MonthlyData) (showForward : bool)
  (startDate : StartDate) (dataKey : DataKey) :
  rawData data showForward startDate dataKey
  = map (fun d =>
           mkPoint (getMonthLabel (month_index d) startDate)
             (month_index d) (column d dataKey))
      (filter (fun d =>
                 (showForward || negb (is_forward d))
                 && match column d dataKey with
                    | Some _ => true
                    | None => false
                    end)
         data).
Proof.
  unfold rawData, chartData. rewrite filter_map_fusion.
  f_equal. destruct showForward.
  - apply filter_ext. intros d. reflexivity.
  - rewrite filter_filter_fusion. apply filter_ext. intros d. reflexivity.
Qed.

(** On the play page, where [showForward] is off, no charted point belongs
    to a forward month and none lacks a value. *)
Theorem rawData_hides_forward (data : list MonthlyData)
  (startDate : StartDate) (dataKey : DataKey) (pt : Point) :
  In pt (rawData data false startDate dataKey) ->
  exists d : MonthlyData,
    In d data /\ is_forward d = false
    /\ monthIndex pt = month_index d
    /\ value pt = column d dataKey /\ value pt <> None.
Proof.
  unfold rawData, chartData. intros Hin.
  apply filter_In in Hin. destruct Hin as [Hin Hv].
  apply in_map_iff in Hin. destruct Hin as (d & <- & Hd).
  apply filter_In in Hd. destruct Hd as [Hd Hf].
  exists d. cbn [monthIndex value]. repeat split.
  - exact Hd.
  - destruct (is_forward d); [ discriminate | reflexivity ].
  - unfold hasValue in Hv. cbn [value] in Hv.
    destruct (column d dataKey); [ discriminate | discriminate ].
Qed.

(** Hard mode indexes on the first charted value: the first point becomes
    100 when that value is positive, but -100 when it is negative (the
    divisor is its absolute value) and 0 when it is zero (the divisor is
    then 1).  Labels and month indices are left as they were. *)
Theorem formattedData_first_point (d : Point) (rest : list Point) (v : Q) :
  value d = Some v ->
  (exists x : Q,
      option_map value (hd_error (formattedData true (d :: rest)))
      = Some (Some x)
      /\ (0 < v -> x == 100)%Q
      /\ (v < 0 -> x == - (100))%Q
      /\ (v == 0 -> x == 0)%Q)
  /\ map month (formattedData true (d :: rest)) = map month (d :: rest)
  /\ map monthIndex (formattedData true (d :: rest))
     = map monthIndex (d :: rest).
Proof.
  intros Hv. split; [ | split ].
  - unfold formattedData. cbn [map hd_error option_map value baseValue].
    rewrite Hv. eexists. split; [ reflexivity | ].
    unfold orOne. destruct (Qeq_bool v 0) eqn:E0.
    + apply Qeq_bool_eq in E0. repeat split; intros H.
      * rewrite E0 in H. discriminate.
      * rewrite E0 in H. discriminate.
      * rewrite E0. reflexivity.
    + apply Qeq_bool_neq in E0. repeat split; intros H.
      * rewrite Qabs_pos by (apply Qlt_le_weak; exact H). field. exact E0.
      * rewrite Qabs_neg by (apply Qlt_le_weak; exact H). field.
        intros E. apply E0. lra.
      * contradiction.
  - unfold formattedData. rewrite map_map. reflexivity.
  - unfold formattedData. rewrite map_map. reflexivity.
Qed.

End ChartsMore.

(** ** The backend address *)

Section ApiClientMore.
Import ApiClient.
Local Open Scope string_scope.

(** The development backend is used exactly for the hostnames localhost and
    127.0.0.1; server-side rendering and every other hostname get the
    production backend, whose address is an https one. *)
Theorem getApiUrl_https_unless_local (window : option string) :
  (getApiUrl window = DEV_API
   <-> window = Some "localhost" \/ window = Some "127.0.0.1")
  /\ (getApiUrl window <> DEV_API ->
      getApiUrl window = PROD_API
      /\ String.prefix "https://" (getApiUrl window) = true).
Proof.
  unfold getApiUrl. destruct window as [hostname | ].
  - destruct (String.eqb hostname "localhost") eqn:E1; cbn [orb].
    + apply String.eqb_eq in E1. subst hostname. split.
      * split; [ intros _; left; reflexivity | reflexivity ].
      * intros H. contradiction H. reflexivity.
    + destruct (String.eqb hostname "127.0.0.1") eqn:E2.
      * apply String.eqb_eq in E2. subst hostname. split.
        -- split; [ intros _; right; reflexivity | reflexivity ].
        -- intros H. contradiction H. reflexivity.
      * apply String.eqb_neq in E1. apply String.eqb_neq in E2. split.
        -- split; [ discriminate | ].
           intros [E | E]; injection E as E; contradiction.
        -- intros _. split; reflexivity.
  - split.
    + split; [ discriminate | intros [E | E]; discriminate ].
    + intros _. split; reflexivity.
Qed.

End ApiClientMore.

(** ** Names and addresses typed by the player *)

Section TypedText.
Import JsString.
Local Open Scope Z_scope.

Lemma usernameChar_not_white (c : N) :
  usernameChar c = true -> isWhiteSpace c = false.
Proof.
  unfold usernameChar. intros H.
  destruct (isWhiteSpace c) eqn:E; [ exfalso | reflexivity ].
  unfold isWhiteSpace in E.
  repeat rewrite ?orb_true_iff, ?andb_true_iff, ?N.leb_le, ?N.eqb_eq in H.
  repeat rewrite ?orb_true_iff, ?andb_true_iff, ?N.leb_le, ?N.eqb_eq in E.
  lia.
Qed.

Lemma trimStart_no_white (s : t) :
  forallb (fun c => negb (isWhiteSpace c)) s = true -> trimStart s = s.
Proof.
  destruct s as [ | c s ]; [ reflexivity | ].
  cbn [forallb trimStart]. intros H. apply andb_true_iff in H.
  destruct H as [Hc _]. destruct (isWhiteSpace c); [ discriminate | ].
  reflexivity.
Qed.

Lemma forallb_rev (f : N -> bool) (s : t) :
  forallb f (rev s) = forallb f s.
Proof.
  induction s as [ | c s IH ]; [ reflexivity | ].
  cbn [rev forallb]. rewrite forallb_app, IH. cbn [forallb].
  rewrite andb_true_r. apply andb_comm.
Qed.

(** A text without white space is its own trim. *)
Lemma trim_no_white (s : t) :
  forallb (fun c => negb (isWhiteSpace c)) s = true -> trim s = s.
Proof.
  intros H. unfold trim, trimEnd.
  rewrite (trimStart_no_white s H).
  rewrite trimStart_no_white by (rewrite forallb_rev; exact H).
  apply rev_involutive.
Qed.




(** What holds whenever the welcome page makes its call. *)
Lemma handleSetUsername_some (st : WelcomePage.State) (name : t) :
  snd (WelcomePage.handleSetUsername st) = Some name ->
  name = trim (WelcomePage.username st)
  /\ 3 <= JsString.length name <= 20
  /\ forallb usernameChar name = true
  /\ WelcomePage.submitting (fst (WelcomePage.handleSetUsername st)) = true
  /\ WelcomePage.error (fst (WelcomePage.handleSetUsername st)) = None.
Proof.
  unfold WelcomePage.handleSetUsername, usernamePattern. cbv zeta.
  destruct (JsString.length (trim (WelcomePage.username st)) <? 3) eqn:E3;
    [ discriminate | ].
  apply Z.ltb_ge in E3.
  destruct (20 <? JsString.length (trim (WelcomePage.username st))) eqn:E20;
    [ discriminate | ].
  apply Z.ltb_ge in E20.
  destruct (isEmpty (trim (WelcomePage.username st))); cbn [negb andb];
    [ discriminate | ].
  destruct (forallb usernameChar (trim (WelcomePage.username st))) eqn:Ec;
    cbn [negb snd fst]; [ | discriminate ].
  intros E. injection E as <-. repeat split; assumption.
Qed.

(** The welcome page passes a name to [api.setUsername] exactly when the
    trimmed input has 3 to 20 code units, all of them letters, digits,
    underscores or hyphens; the name passed is the trimmed input. *)
Theorem handleSetUsername_request_iff (st : WelcomePage.State) (name : t) :
  snd (WelcomePage.handleSetUsername st) = Some name
  <-> name = trim (WelcomePage.username st)
      /\ 3 <= JsString.length name <= 20
      /\ forallb usernameChar name = true.
Proof.
  split.
  - intros E. destruct (handleSetUsername_some st name E) as (H1 & H2 & H3 & _).
    repeat split; try assumption; apply H2.
  - intros (-> & Hlen & Hc).
    unfold WelcomePage.handleSetUsername, usernamePattern. cbv zeta.
    replace (JsString.length (trim (WelcomePage.username st)) <? 3)
      with false by (symmetry; apply Z.ltb_ge; lia).
    replace (20 <? JsString.length (trim (WelcomePage.username st)))
      with false by (symmetry; apply Z.ltb_ge; lia).
    rewrite Hc.
    destruct (trim (WelcomePage.username st)); [ cbn in Hlen; lia | ].
    reflexivity.
Qed.

(** A name the welcome page sends contains no white space anywhere, so it is
    unchanged by a further trim; the page is then marked as submitting with
    its error cleared. *)
Theorem handleSetUsername_sends_clean_name (st : WelcomePage.State)
  (name : t) :
  snd (WelcomePage.handleSetUsername st) = Some name ->
  forallb (fun c => negb (isWhiteSpace c)) name = true
  /\ trim name = name
  /\ WelcomePage.submitting (fst (WelcomePage.handleSetUsername st)) = true
  /\ WelcomePage.error (fst (WelcomePage.handleSetUsername st)) = None.
Proof.
  intros Hs.
  destruct (handleSetUsername_some st name Hs) as (_ & _ & Hc & Hsub & Herr).
  assert (Hw : forallb (fun c => negb (isWhiteSpace c)) name = true).
  { apply forallb_forall. intros c Hin.
    rewrite forallb_forall in Hc.
    rewrite (usernameChar_not_white c (Hc c Hin)). reflexivity. }
  repeat split; try assumption. apply trim_no_white. exact Hw.
Qed.

(** An enabled Continue button is never answered with the too-short
    message: the button and the handler measure the same trimmed name. *)
Theorem submitDisabled_covers_too_short (st : WelcomePage.State) :
  WelcomePage.submitDisabled st = false ->
  WelcomePage.error (fst (WelcomePage.handleSetUsername st))
  <> Some "Username must be at least 3 characters"%string.
Proof.
  unfold WelcomePage.submitDisabled, WelcomePage.handleSetUsername.
  cbv zeta. intros H. apply orb_false_iff in H. destruct H as [_ H].
  rewrite H.
  destruct (20 <? _); [ cbn; discriminate | ].
  destruct (negb _); cbn; discriminate.
Qed.


End TypedText.

(** ** Joining the leaderboard *)

Section Leaderboard.
Import RevealPage.
Local Open Scope Z_scope.

Lemma long_name_passes (name : JsString.t) :
  3 <= JsString.length name ->
  JsString.isEmpty name || (JsString.length name <? 3) = false.
Proof.
  intros H. destruct name as [ | c name ]; [ cbn in H; lia | ].
  cbn [JsString.isEmpty orb]. apply Z.ltb_ge. exact H.
Qed.

Lemma short_name_stops (name : JsString.t) :
  JsString.length name < 3 ->
  JsString.isEmpty name || (JsString.length name <? 3) = true.
Proof.
  intros H. apply orb_true_iff. right. apply Z.ltb_lt. exact H.
Qed.

(** Every request the reveal page sends presupposes a name of at least 3
    code units.  A leaderboard entry is requested for this game's token
    under that name (the account's username if it has one, else the typed
    one); a username is only set, and the game only linked, for a logged-in
    player. *)
Theorem handleJoinLeaderboard_requests (user : option User) (token : string)
  (backend : Backend) (st : State) (r : Request) :
  In r (snd (handleJoinLeaderboard user token backend st)) ->
  3 <= JsString.length (usernameToUse user st)
  /\ match r with
     | JoinLeaderboard tk name =>
         tk = token /\ name = usernameToUse user st
     | SetUsername name =>
         name = username st
         /\ exists u : User, user = Some u /\ lacksUsername u = true
     | LinkGameToUser tk => tk = token /\ user <> None
     end.
Proof.
  unfold handleJoinLeaderboard. cbv zeta.
  destruct (JsString.isEmpty (usernameToUse user st)
            || (JsString.length (usernameToUse user st) <? 3)) eqn:Echeck.
  { intros []. }
  assert (Hlen : 3 <= JsString.length (usernameToUse user st)).
  { apply orb_false_iff in Echeck. destruct Echeck as [_ E].
    apply Z.ltb_ge in E. exact E. }
  intros Hin. split; [ exact Hlen | ].
  destruct user as [u | ].
  - destruct (lacksUsername u && negb (JsString.isEmpty (username st)))
      eqn:Eset.
    + apply andb_true_iff in Eset. destruct Eset as [Hl _].
      destruct (setUsernameOutcome backend);
        [ destruct (joinOutcome backend) | ]; cbn in Hin;
        repeat (destruct Hin as [<- | Hin]);
        try contradiction;
        first [ split; [ reflexivity | eexists; split; [ reflexivity | exact Hl ] ]
              | split; [ reflexivity | discriminate ]
              | split; reflexivity ].
    + destruct (joinOutcome backend); cbn in Hin;
        repeat (destruct Hin as [<- | Hin]);
        try contradiction;
        first [ split; [ reflexivity | discriminate ]
              | split; reflexivity ].
  - destruct (joinOutcome backend); cbn in Hin;
      repeat (destruct Hin as [<- | Hin]);
      try contradiction; split; reflexivity.
Qed.

(** With a name of at least 3 code units, and the username call (if one is
    made) resolving, the leaderboard request is always the last request
    sent, whether linking the game succeeded or not.  If it resolves the
    player is marked as joined and the error is cleared; if it rejects the
    player stays as before and sees the message of the error, or the
    fallback text when the message is empty. *)
Theorem handleJoinLeaderboard_outcome (user : option User) (token : string)
  (backend : Backend) (st : State) :
  3 <= JsString.length (usernameToUse user st) ->
  setUsernameOutcome backend = Resolved ->
  (exists before : list Request,
      snd (handleJoinLeaderboard user token backend st)
      = before ++ [JoinLeaderboard token (usernameToUse user st)])
  /\ fst (handleJoinLeaderboard user token backend st)
     = match joinOutcome backend with
       | Resolved => mkState (username st) None true
       | Rejected message =>
           mkState (username st)
             (Some (messageOr message "Failed to join leaderboard"%string))
             (joinedLeaderboard st)
       end.
Proof.
  intros Hlen Hset. unfold handleJoinLeaderboard. cbv zeta.
  rewrite (long_name_passes _ Hlen), Hset.
  destruct user as [u | ].
  - destruct (lacksUsername u && negb (JsString.isEmpty (username st)));
      destruct (joinOutcome backend); cbn [fst snd]; split;
      try reflexivity; eexists; reflexivity.
  - destruct (joinOutcome backend); cbn [fst snd]; split;
      try reflexivity; exists []; reflexivity.
Qed.

(** A name shorter than 3 code units sends nothing and only sets the
    too-short message; and for a player who is not logged in a longer name
    is sent exactly as typed: the reveal page neither trims it nor checks
    its characters or an upper length, unlike the welcome page. *)
Theorem handleJoinLeaderboard_checks_length_only (token : string)
  (backend : Backend) (st : State) :
  (forall user : option User,
      JsString.length (usernameToUse user st) < 3 ->
      handleJoinLeaderboard user token backend st
      = (mkState (username st)
           (Some "Username must be at least 3 characters"%string)
           (joinedLeaderboard st),
         []))
  /\ (3 <= JsString.length (username st) ->
      snd (handleJoinLeaderboard None token backend st)
      = [JoinLeaderboard token (username st)]).
Proof.
  split.
  - intros user Hshort. unfold handleJoinLeaderboard. cbv zeta.
    rewrite (short_name_stops _ Hshort). reflexivity.
  - intros Hlen. unfold handleJoinLeaderboard. cbv zeta.
    cbn [usernameToUse]. rewrite (long_name_passes _ Hlen).
    destruct (joinOutcome backend); reflexivity.
Qed.

End Leaderboard.

(** ** The further properties at concrete inputs *)

Section MoreInstances.
Import Api Engine.

(** Raising above5 of the default vector to 1 keeps four probabilities. *)
Lemma updatePrediction_stays_in_unit_interval_default :
  probabilities Home.initialPredictions
  /\ unit_interval 1
  /\ probabilities
       (PredictionForm.updatePrediction Home.initialPredictions
          PredictionForm.key_above_5pct 1).
Proof.
  assert (Hp : probabilities Home.initialPredictions)
    by (unfold probabilities, unit_interval; cbn; repeat split; lra).
  assert (Hv : unit_interval 1) by (unfold unit_interval; split; lra).
  split; [ exact Hp | split; [ exact Hv | ] ].
  exact (updatePrediction_stays_in_unit_interval Home.initialPredictions
           PredictionForm.key_above_5pct 1%Q Hp Hv).
Defined.

(** Entering 0.4 for above10 of the default vector changes nothing. *)
Lemma updatePrediction_current_value_default :
  monotonic Home.initialPredictions
  /\ PredictionForm.updatePrediction Home.initialPredictions
       PredictionForm.key_above_10pct 0.4
     = Home.initialPredictions.
Proof.
  assert (Hm : monotonic Home.initialPredictions)
    by (unfold monotonic; cbn; repeat split; lra).
  split; [ exact Hm | ].
  exact (updatePrediction_current_value Home.initialPredictions
           PredictionForm.key_above_10pct Hm).
Defined.

(** The default vector after the above15 row was dragged to 90%. *)
Lemma reachablePredictions_invariant_after_slide :
  monotonic
    (PredictionForm.confidenceSlide Home.initialPredictions
       PredictionForm.key_above_15pct 0.9).
Proof.
  assert (Hlo : (0.5 <= 0.9)%Q) by lra.
  assert (Hhi : (0.9 <= 1)%Q) by lra.
  exact (proj2 (reachablePredictions_invariant _
                  (Session.reach_confidence Home.initialPredictions
                     PredictionForm.key_above_15pct 0.9%Q
                     Session.reach_default Hlo Hhi))).
Defined.

Local Open Scope Z_scope.

(** After cash was pulled to 0, gold raised to 7 brings the total back to
    100. *)
Lemma updateAllocationWithCashAdjust_restores_remainder_gold :
  AllocationSliders.total
    (AllocationSliders.updateAllocationWithCashAdjust
       (AllocationSliders.updateCash Home.initialAllocation 0)
       AllocationSliders.key_gold 7) = 100.
Proof.
  destruct updateAllocationWithCashAdjust_restores_remainder as [_ H].
  refine (H Home.initialAllocation AllocationSliders.key_gold 0 7 _ _ _);
    unfold Binary64.exactAllocation, Binary64.exactInteger; cbn; lia.
Defined.

(** Cash of the default allocation pulled to 0: the total is 95, and 0 is
    less than the remainder 5. *)
Lemma updateCash_total_default :
  Binary64.exactAllocation Home.initialAllocation
  /\ Binary64.exactInteger 0
  /\ AllocationSliders.total
       (AllocationSliders.updateCash Home.initialAllocation 0) <= 100.
Proof.
  assert (Ha : Binary64.exactAllocation Home.initialAllocation)
    by (unfold Binary64.exactAllocation, Binary64.exactInteger; cbn; lia).
  assert (Hv : Binary64.exactInteger 0)
    by (unfold Binary64.exactInteger; cbn; lia).
  split; [ exact Ha | split; [ exact Hv | ] ].
  exact (proj1 (updateCash_total Home.initialAllocation 0 Ha Hv)).
Defined.

(** The default allocation after cash was pulled to 0: a shortfall of 5. *)
Lemma reachable_never_over_100_after_cash_edit :
  AllocationSliders.total
    (AllocationSliders.sliderChange Home.initialAllocation
       AllocationSliders.Cash 0) <= 100.
Proof.
  assert (Hv : 0 <= 0 <= 100) by lia.
  exact (proj1 (proj2 (reachable_never_over_100 _
                         (Home.reach_slider Home.initialAllocation
                            AllocationSliders.Cash 0
                            Home.reach_initial Hv)))).
Defined.

(** The Equal Split button from the default allocation. *)
Lemma presetClick_selects_equal_split :
  AllocationPresets.selectedPreset
    (AllocationPresets.presetClick Home.initialAllocation
       (AllocationPresets.mkPreset "Equal Split" (mkAllocation 25 25 25 25)
          "terminal-text"))
  = Some (AllocationPresets.mkPreset "Equal Split"
            (mkAllocation 25 25 25 25) "terminal-text").
Proof.
  refine (presetClick_selects_it Home.initialAllocation _ _).
  cbn. right; right; right; right; left. reflexivity.
Defined.

(** A page with a scenario and an empty rationale: the box is not too long
    and the button does not answer with the rationale error. *)
Lemma isTooLong_iff_submit_refuses_empty :
  RationaleInput.isTooLong [] RationaleInput.defaultMaxLength = true
  <-> Home.handleSubmit
        (Home.mkState Home.playing (Some 7) None Home.initialPredictions
           Home.initialAllocation [])
      = (Home.setError
           (Home.mkState Home.playing (Some 7) None Home.initialPredictions
              Home.initialAllocation [])
           (Some "Rationale must be 500 characters or less."%string),
         None).
Proof.
  refine (isTooLong_iff_submit_refuses
            (Home.mkState Home.playing (Some 7) None Home.initialPredictions
               Home.initialAllocation []) _).
  discriminate.
Defined.



(** Two rows, the second one forward: only the first is charted. *)
Lemma rawData_hides_forward_two_rows :
  exists d : Charts.MonthlyData,
    In d [ Charts.mkMonthlyData 24 false 100 100 100 100
             (Some 2.5%Q) None None None None;
           Charts.mkMonthlyData 25 true 101 100 100 100
             (Some 3%Q) None None None None ]
    /\ Charts.is_forward d = false
    /\ 24 = Charts.month_index d
    /\ Some 2.5%Q = Charts.column d Charts.gdp_growth_yoy_key
    /\ Some 2.5%Q <> None.
Proof.
  refine (rawData_hides_forward _ Charts.NoStartDate
            Charts.gdp_growth_yoy_key
            (Charts.mkPoint "Month 24" 24 (Some 2.5%Q)) _).
  cbn. left. reflexivity.
Defined.

(** A series that starts at -4 is indexed to -100 in hard mode. *)
Lemma formattedData_first_point_negative :
  exists x : Q,
    option_map Charts.value
      (hd_error
         (Charts.formattedData true
            [Charts.mkPoint "Month 1" 1 (Some (-4)%Q)]))
    = Some (Some x)
    /\ (x == - (100))%Q.
Proof.
  assert (E : Charts.value (Charts.mkPoint "Month 1" 1 (Some (-4)%Q))
              = Some (-4)%Q) by reflexivity.
  destruct (proj1 (formattedData_first_point
                     (Charts.mkPoint "Month 1" 1 (Some (-4)%Q)) []
                     (-4)%Q E))
    as (x & Hx & _ & Hneg & _).
  exists x. split; [ exact Hx | apply Hneg; reflexivity ].
Defined.

(** The typed name [  alice ], with two spaces before and one after, is sent
    as [alice]. *)
Lemma handleSetUsername_sends_alice :
  JsString.trim [97; 108; 105; 99; 101]%N = [97; 108; 105; 99; 101]%N
  /\ WelcomePage.submitting
       (fst (WelcomePage.handleSetUsername
               (WelcomePage.mkState
                  [32; 32; 97; 108; 105; 99; 101; 32]%N None false)))
     = true.
Proof.
  assert (E : snd (WelcomePage.handleSetUsername
                     (WelcomePage.mkState
                        [32; 32; 97; 108; 105; 99; 101; 32]%N None false))
              = Some [97; 108; 105; 99; 101]%N) by reflexivity.
  destruct (handleSetUsername_sends_clean_name _ _ E) as (_ & Ht & Hs & _).
  split; [ exact Ht | exact Hs ].
Defined.

(** With [  alice ] typed the button is enabled and the answer is not the
    too-short message. *)
Lemma submitDisabled_covers_too_short_alice :
  WelcomePage.error
    (fst (WelcomePage.handleSetUsername
            (WelcomePage.mkState
               [32; 32; 97; 108; 105; 99; 101; 32]%N None false)))
  <> Some "Username must be at least 3 characters"%string.
Proof.
  refine (submitDisabled_covers_too_short
            (WelcomePage.mkState
               [32; 32; 97; 108; 105; 99; 101; 32]%N None false) _).
  reflexivity.
Defined.

(** A logged-in player without a username types [bob]: the leaderboard
    request carries the token and [bob]. *)
Lemma handleJoinLeaderboard_requests_bob :
  3 <= JsString.length
         (RevealPage.usernameToUse (Some (RevealPage.mkUser None))
            (RevealPage.mkState [98; 111; 98]%N None false))
  /\ "tok"%string = "tok"%string
  /\ [98; 111; 98]%N
     = RevealPage.usernameToUse (Some (RevealPage.mkUser None))
         (RevealPage.mkState [98; 111; 98]%N None false).
Proof.
  refine (handleJoinLeaderboard_requests (Some (RevealPage.mkUser None))
            "tok"
            (RevealPage.mkBackend RevealPage.Resolved RevealPage.Resolved
               RevealPage.Resolved)
            (RevealPage.mkState [98; 111; 98]%N None false)
            (RevealPage.JoinLeaderboard "tok" [98; 111; 98]%N) _).
  cbn. right; right; left. reflexivity.
Defined.

(** The same player when linking the game is rejected: the join still
    happens. *)
Lemma handleJoinLeaderboard_outcome_link_rejected :
  fst (RevealPage.handleJoinLeaderboard (Some (RevealPage.mkUser None)) "tok"
         (RevealPage.mkBackend RevealPage.Resolved
            (RevealPage.Rejected "Game already linked") RevealPage.Resolved)
         (RevealPage.mkState [98; 111; 98]%N None false))
  = RevealPage.mkState [98; 111; 98]%N None true.
Proof.
  assert (Hlen : 3 <= JsString.length
                        (RevealPage.usernameToUse
                           (Some (RevealPage.mkUser None))
                           (RevealPage.mkState [98; 111; 98]%N None false)))
    by (cbn; lia).
  exact (proj2 (handleJoinLeaderboard_outcome
                  (Some (RevealPage.mkUser None)) "tok"
                  (RevealPage.mkBackend RevealPage.Resolved
                     (RevealPage.Rejected "Game already linked")
                     RevealPage.Resolved)
                  (RevealPage.mkState [98; 111; 98]%N None false)
                  Hlen eq_refl)).
Defined.

End MoreInstances.

(** ** The value axis of the indicator chart *)

Section AxisRange.
Import Charts JsMath IndicatorStats.
Local Open Scope Q_scope.

Lemma fold_Math_min_le (rest : list Q) (v x : Q) :
  x == v \/ In x rest -> fold_left Math_min rest v <= x.
Proof.
  revert v x. induction rest as [ | y rest IH ]; intros v x Hx.
  - destruct Hx as [E | []]. cbn. rewrite E. apply Qle_refl.
  - cbn [fold_left].
    destruct (Math_min_cases v y) as [[Hle Em] | [Hlt Em]]; rewrite Em.
    + destruct Hx as [E | [E | Hin]].
      * apply IH. left. exact E.
      * subst x.
        apply Qle_trans with v; [ apply IH; left; reflexivity | exact Hle ].
      * apply IH. right. exact Hin.
    + destruct Hx as [E | [E | Hin]].
      * apply Qle_trans with y; [ apply IH; left; reflexivity | ].
        rewrite E. apply Qlt_le_weak. exact Hlt.
      * subst x. apply IH. left. reflexivity.
      * apply IH. right. exact Hin.
Qed.

Lemma fold_Math_max_ge (rest : list Q) (v x : Q) :
  x == v \/ In x rest -> x <= fold_left Math_max rest v.
Proof.
  revert v x. induction rest as [ | y rest IH ]; intros v x Hx.
  - destruct Hx as [E | []]. cbn. rewrite E. apply Qle_refl.
  - cbn [fold_left].
    destruct (Math_max_cases v y) as [[Hle Em] | [Hlt Em]]; rewrite Em.
    + destruct Hx as [E | [E | Hin]].
      * apply IH. left. exact E.
      * subst x.
        apply Qle_trans with v; [ exact Hle | apply IH; left; reflexivity ].
      * apply IH. right. exact Hin.
    + destruct Hx as [E | [E | Hin]].
      * apply Qle_trans with y; [ | apply IH; left; reflexivity ].
        rewrite E. apply Qlt_le_weak. exact Hlt.
      * subst x. apply IH. left. reflexivity.
      * apply IH. right. exact Hin.
Qed.

(** Outside hard mode the value axis always contains every charted value
    and, when the indicator has one, its reference value: each lies between
    the two ends of [yDomain]. *)
Theorem yDomain_contains (vs : list Q) (referenceValue : option Q) :
  (forall v : Q, In v vs ->
     fst (yDomain vs referenceValue) <= v
     /\ v <= snd (yDomain vs referenceValue))
  /\ (forall r : Q, referenceValue = Some r ->
        fst (yDomain vs referenceValue) <= r
        /\ r <= snd (yDomain vs referenceValue)).
Proof.
  unfold yDomain. cbn [fst snd]. split.
  - intros v Hin.
    assert (Hmin : minValue vs <= v).
    { destruct vs as [ | v0 rest ]; [ destruct Hin | ].
      unfold minValue. apply fold_Math_min_le.
      destruct Hin as [<- | Hin]; [ left; reflexivity | right; exact Hin ]. }
    assert (Hmax : v <= maxValue vs).
    { destruct vs as [ | v0 rest ]; [ destruct Hin | ].
      unfold maxValue. apply fold_Math_max_ge.
      destruct Hin as [<- | Hin]; [ left; reflexivity | right; exact Hin ]. }
    split.
    + destruct (Math_min_cases (minValue vs)
                  (orElse referenceValue (minValue vs)))
        as [[H E] | [H E]]; rewrite E; lra.
    + destruct (Math_max_cases (maxValue vs)
                  (orElse referenceValue (maxValue vs)))
        as [[H E] | [H E]]; rewrite E; lra.
  - intros r ->. cbn [orElse]. split.
    + destruct (Math_min_cases (minValue vs) r) as [[H E] | [H E]];
        rewrite E; lra.
    + destruct (Math_max_cases (maxValue vs) r) as [[H E] | [H E]];
        rewrite E; lra.
Qed.

End AxisRange.
